(** * Adaptive marching cubes: a model of [version3.cpp]

    The program polygonizes the zero set of a scalar field inside an
    axis-aligned box: [surface_to_triangles] subdivides the box into octants,
    prunes octants with the sampling probe [cube_contains_surface], and runs
    the fixed-table extractor [marching_cubes] on the leaves; [draw_surface]
    writes the triangles to a mesh file.

    Numbers.  The file holds two models of the arithmetic of [double].  In
    the first the values are exact rationals [Q]: it carries the statements
    about the branches taken, the tables and the tests of sign, which hold
    whatever the rounding.  In the second, the module [Binary64] at the end,
    the values are IEEE binary64 numbers ([PrimFloat]) with their rounding,
    infinities and NaN: it carries the statements that depend on the
    arithmetic itself (where the samples of the probe fall, whether a
    subdivision makes the boxes smaller, which values of [rand()] a probe
    receives).  The two differ where rounding matters: in binary64 a sample
    of the probe can fall just outside the box, the midpoint of two
    neighbouring doubles is one of the two, and the sum of two large ends
    is infinite.  C++ [int] values (table entries, bit masks, face indices)
    are [Z]; every one of them stays far below 2^31 on the inputs
    considered, so no wrap-around occurs.

    Randomness.  [rand()] is the C library's process-wide generator.  A caller
    sees it as a sequence of integers; [rand_source] is that sequence, and
    [RAND_MAX] is a parameter of the development.  The concrete runs of the
    second model take the values that glibc's generator returns for the
    default seed.

    Recursion.  [surface_to_triangles] does not end on every input, so its
    model counts the depth of the recursion and returns an [option].

    Not modelled: the mathematical fields built in [main] (square roots and
    trigonometry), and the line that [draw_surface] prints on standard
    output.

    The file has five parts: the model of the pipeline, the vocabulary of
    the statements, the properties of the pipeline with their proofs, the
    rest of the code ([Point3D::operator==], [class Face]) with further
    properties of the whole, and the pipeline in binary64 arithmetic with
    the properties that depend on it. *)

From Stdlib Require Import String ZArith QArith Qabs Qround List Bool Lia Lqa.
From Stdlib Require Floats Uint63 PArray.
Import ListNotations.

Local Open Scope Q_scope.

(** ** Comparisons on [double] *)

Definition Qltb (a b : Q) : bool := negb (Qle_bool b a).
Definition Qgeb (a b : Q) : bool := Qle_bool b a.

(** ** Data model *)

(** [class Point3D]: three coordinates, default-constructed at the origin. *)
Record Point3D : Type := mkPoint3D { x : Q; y : Q; z : Q }.

Definition Point3D_default : Point3D := mkPoint3D 0 0 0.

(** [class Triangle]: three corner points. *)
Record Triangle : Type := mkTriangle { p1 : Point3D; p2 : Point3D; p3 : Point3D }.

(** A scalar field: the function-pointer parameter [f], three [double]s to
    a [double]. *)
Definition field : Type := Q -> Q -> Q -> Q.

Definition eval (f : field) (p : Point3D) : Q := f (x p) (y p) (z p).

(** ** [interpolate_3d] *)

Definition interpolate_3d (p1 p2 : Point3D) (f1 f2 : Q) : Point3D :=
  if Qltb (Qabs (f2 - f1)) 1e-9 then
    mkPoint3D ((x p1 + x p2) / 2) ((y p1 + y p2) / 2) ((z p1 + z p2) / 2)
  else
    let t := (0 - f1) / (f2 - f1) in
    mkPoint3D (x p1 + t * (x p2 - x p1))
              (y p1 + t * (y p2 - y p1))
              (z p1 + t * (z p2 - z p1)).

(** ** The lookup tables of [marching_cubes] *)

Local Open Scope Z_scope.

Definition edgeTable : list Z :=
  [
    0x0; 0x109; 0x203; 0x30a; 0x406; 0x50f; 0x605; 0x70c;
    0x80c; 0x905; 0xa0f; 0xb06; 0xc0a; 0xd03; 0xe09; 0xf00;
    0x190; 0x99; 0x393; 0x29a; 0x596; 0x49f; 0x795; 0x69c;
    0x99c; 0x895; 0xb9f; 0xa96; 0xd9a; 0xc93; 0xf99; 0xe90;
    0x230; 0x339; 0x33; 0x13a; 0x636; 0x73f; 0x435; 0x53c;
    0xa3c; 0xb35; 0x83f; 0x936; 0xe3a; 0xf33; 0xc39; 0xd30;
    0x3a0; 0x2a9; 0x1a3; 0xaa; 0x7a6; 0x6af; 0x5a5; 0x4ac;
    0xbac; 0xaa5; 0x9af; 0x8a6; 0xfaa; 0xea3; 0xda9; 0xca0;
    0x460; 0x569; 0x663; 0x76a; 0x66; 0x16f; 0x265; 0x36c;
    0xc6c; 0xd65; 0xe6f; 0xf66; 0x86a; 0x963; 0xa69; 0xb60;
    0x5f0; 0x4f9; 0x7f3; 0x6fa; 0x1f6; 0xff; 0x3f5; 0x2fc;
    0xdfc; 0xcf5; 0xfff; 0xef6; 0x9fa; 0x8f3; 0xbf9; 0xaf0;
    0x650; 0x759; 0x453; 0x55a; 0x256; 0x35f; 0x55; 0x15c;
    0xe5c; 0xf55; 0xc5f; 0xd56; 0xa5a; 0xb53; 0x859; 0x950;
    0x7c0; 0x6c9; 0x5c3; 0x4ca; 0x3c6; 0x2cf; 0x1c5; 0xcc;
    0xfcc; 0xec5; 0xdcf; 0xcc6; 0xbca; 0xac3; 0x9c9; 0x8c0;
    0x8c0; 0x9c9; 0xac3; 0xbca; 0xcc6; 0xdcf; 0xec5; 0xfcc;
    0xcc; 0x1c5; 0x2cf; 0x3c6; 0x4ca; 0x5c3; 0x6c9; 0x7c0;
    0x950; 0x859; 0xb53; 0xa5a; 0xd56; 0xc5f; 0xf55; 0xe5c;
    0x15c; 0x55; 0x35f; 0x256; 0x55a; 0x453; 0x759; 0x650;
    0xaf0; 0xbf9; 0x8f3; 0x9fa; 0xef6; 0xfff; 0xcf5; 0xdfc;
    0x2fc; 0x3f5; 0xff; 0x1f6; 0x6fa; 0x7f3; 0x4f9; 0x5f0;
    0xb60; 0xa69; 0x963; 0x86a; 0xf66; 0xe6f; 0xd65; 0xc6c;
    0x36c; 0x265; 0x16f; 0x66; 0x76a; 0x663; 0x569; 0x460;
    0xca0; 0xda9; 0xea3; 0xfaa; 0x8a6; 0x9af; 0xaa5; 0xbac;
    0x4ac; 0x5a5; 0x6af; 0x7a6; 0xaa; 0x1a3; 0x2a9; 0x3a0;
    0xd30; 0xc39; 0xf33; 0xe3a; 0x936; 0x83f; 0xb35; 0xa3c;
    0x53c; 0x435; 0x73f; 0x636; 0x13a; 0x33; 0x339; 0x230;
    0xe90; 0xf99; 0xc93; 0xd9a; 0xa96; 0xb9f; 0x895; 0x99c;
    0x69c; 0x795; 0x49f; 0x596; 0x29a; 0x393; 0x99; 0x190;
    0xf00; 0xe09; 0xd03; 0xc0a; 0xb06; 0xa0f; 0x905; 0x80c;
    0x70c; 0x605; 0x50f; 0x406; 0x30a; 0x203; 0x109; 0x0 ].

Definition triTable : list (list Z) :=
  [
    [-1; -1; -1; -1; -1; -1; -1; -1; -1; -1; -1; -1; -1; -1; -1; -1];
    [0; 8; 3; -1; -1; -1; -1; -1; -1; -1; -1; -1; -1; -1; -1; -1];
    [0; 1; 9; -1; -1; -1; -1; -1; -1; -1; -1; -1; -1; -1; -1; -1];
    [1; 8; 3; 9; 8; 1; -1; -1; -1; -1; -1; -1; -1; -1; -1; -1];
    [1; 2; 10; -1; -1; -1; -1; -1; -1; -1; -1; -1; -1; -1; -1; -1];
    [0; 8; 3; 1; 2; 10; -1; -1; -1; -1; -1; -1; -1; -1; -1; -1];
    [9; 2; 10; 0; 2; 9; -1; -1; -1; -1; -1; -1; -1; -1; -1; -1];
    [2; 8; 3; 2; 10; 8; 10; 9; 8; -1; -1; -1; -1; -1; -1; -1];
    [3; 11; 2; -1; -1; -1; -1; -1; -1; -1; -1; -1; -1; -1; -1; -1];
    [0; 11; 2; 8; 11; 0; -1; -1; -1; -1; -1; -1; -1; -1; -1; -1];
    [1; 9; 0; 2; 3; 11; -1; -1; -1; -1; -1; -1; -1; -1; -1; -1];
    [1; 11; 2; 1; 9; 11; 9; 8; 11; -1; -1; -1; -1; -1; -1; -1];
    [3; 10; 1; 11; 10; 3; -1; -1; -1; -1; -1; -1; -1; -1; -1; -1];
    [0; 10; 1; 0; 8; 10; 8; 11; 10; -1; -1; -1; -1; -1; -1; -1];
    [3; 9; 0; 3; 11; 9; 11; 10; 9; -1; -1; -1; -1; -1; -1; -1];
    [9; 8; 10; 10; 8; 11; -1; -1; -1; -1; -1; -1; -1; -1; -1; -1];
    [4; 7; 8; -1; -1; -1; -1; -1; -1; -1; -1; -1; -1; -1; -1; -1];
    [4; 3; 0; 7; 3; 4; -1; -1; -1; -1; -1; -1; -1; -1; -1; -1];
    [0; 1; 9; 8; 4; 7; -1; -1; -1; -1; -1; -1; -1; -1; -1; -1];
    [4; 1; 9; 4; 7; 1; 7; 3; 1; -1; -1; -1; -1; -1; -1; -1];
    [1; 2; 10; 8; 4; 7; -1; -1; -1; -1; -1; -1; -1; -1; -1; -1];
    [3; 4; 7; 3; 0; 4; 1; 2; 10; -1; -1; -1; -1; -1; -1; -1];
    [9; 2; 10; 9; 0; 2; 8; 4; 7; -1; -1; -1; -1; -1; -1; -1];
    [2; 10; 9; 2; 9; 7; 2; 7; 3; 7; 9; 4; -1; -1; -1; -1];
    [8; 4; 7; 3; 11; 2; -1; -1; -1; -1; -1; -1; -1; -1; -1; -1];
    [11; 4; 7; 11; 2; 4; 2; 0; 4; -1; -1; -1; -1; -1; -1; -1];
    [9; 0; 1; 8; 4; 7; 2; 3; 11; -1; -1; -1; -1; -1; -1; -1];
    [4; 7; 11; 9; 4; 11; 9; 11; 2; 9; 2; 1; -1; -1; -1; -1];
    [3; 10; 1; 3; 11; 10; 7; 8; 4; -1; -1; -1; -1; -1; -1; -1];
    [1; 11; 10; 1; 4; 11; 1; 0; 4; 7; 11; 4; -1; -1; -1; -1];
    [4; 7; 8; 9; 0; 11; 9; 11; 10; 11; 0; 3; -1; -1; -1; -1];
    [4; 7; 11; 4; 11; 9; 9; 11; 10; -1; -1; -1; -1; -1; -1; -1];
    [9; 5; 4; -1; -1; -1; -1; -1; -1; -1; -1; -1; -1; -1; -1; -1];
    [9; 5; 4; 0; 8; 3; -1; -1; -1; -1; -1; -1; -1; -1; -1; -1];
    [0; 5; 4; 1; 5; 0; -1; -1; -1; -1; -1; -1; -1; -1; -1; -1];
    [8; 5; 4; 8; 3; 5; 3; 1; 5; -1; -1; -1; -1; -1; -1; -1];
    [1; 2; 10; 9; 5; 4; -1; -1; -1; -1; -1; -1; -1; -1; -1; -1];
    [3; 0; 8; 1; 2; 10; 4; 9; 5; -1; -1; -1; -1; -1; -1; -1];
    [5; 2; 10; 5; 4; 2; 4; 0; 2; -1; -1; -1; -1; -1; -1; -1];
    [2; 10; 5; 3; 2; 5; 3; 5; 4; 3; 4; 8; -1; -1; -1; -1];
    [9; 5; 4; 2; 3; 11; -1; -1; -1; -1; -1; -1; -1; -1; -1; -1];
    [0; 11; 2; 0; 8; 11; 4; 9; 5; -1; -1; -1; -1; -1; -1; -1];
    [0; 5; 4; 0; 1; 5; 2; 3; 11; -1; -1; -1; -1; -1; -1; -1];
    [2; 1; 5; 2; 5; 8; 2; 8; 11; 4; 8; 5; -1; -1; -1; -1];
    [10; 3; 11; 10; 1; 3; 9; 5; 4; -1; -1; -1; -1; -1; -1; -1];
    [4; 9; 5; 0; 8; 1; 8; 10; 1; 8; 11; 10; -1; -1; -1; -1];
    [5; 4; 0; 5; 0; 11; 5; 11; 10; 11; 0; 3; -1; -1; -1; -1];
    [5; 4; 8; 5; 8; 10; 10; 8; 11; -1; -1; -1; -1; -1; -1; -1];
    [9; 7; 8; 5; 7; 9; -1; -1; -1; -1; -1; -1; -1; -1; -1; -1];
    [9; 3; 0; 9; 5; 3; 5; 7; 3; -1; -1; -1; -1; -1; -1; -1];
    [0; 7; 8; 0; 1; 7; 1; 5; 7; -1; -1; -1; -1; -1; -1; -1];
    [1; 5; 3; 3; 5; 7; -1; -1; -1; -1; -1; -1; -1; -1; -1; -1];
    [9; 7; 8; 9; 5; 7; 10; 1; 2; -1; -1; -1; -1; -1; -1; -1];
    [10; 1; 2; 9; 5; 0; 5; 3; 0; 5; 7; 3; -1; -1; -1; -1];
    [8; 0; 2; 8; 2; 5; 8; 5; 7; 10; 5; 2; -1; -1; -1; -1];
    [2; 10; 5; 2; 5; 3; 3; 5; 7; -1; -1; -1; -1; -1; -1; -1];
    [7; 9; 5; 7; 8; 9; 3; 11; 2; -1; -1; -1; -1; -1; -1; -1];
    [9; 5; 7; 9; 7; 2; 9; 2; 0; 2; 7; 11; -1; -1; -1; -1];
    [2; 3; 11; 0; 1; 8; 1; 7; 8; 1; 5; 7; -1; -1; -1; -1];
    [11; 2; 1; 11; 1; 7; 7; 1; 5; -1; -1; -1; -1; -1; -1; -1];
    [9; 5; 8; 8; 5; 7; 10; 1; 3; 10; 3; 11; -1; -1; -1; -1];
    [5; 7; 0; 5; 0; 9; 7; 11; 0; 1; 0; 10; 11; 10; 0; -1];
    [11; 10; 0; 11; 0; 3; 10; 5; 0; 8; 0; 7; 5; 7; 0; -1];
    [11; 10; 5; 7; 11; 5; -1; -1; -1; -1; -1; -1; -1; -1; -1; -1];
    [10; 6; 5; -1; -1; -1; -1; -1; -1; -1; -1; -1; -1; -1; -1; -1];
    [0; 8; 3; 5; 10; 6; -1; -1; -1; -1; -1; -1; -1; -1; -1; -1];
    [9; 0; 1; 5; 10; 6; -1; -1; -1; -1; -1; -1; -1; -1; -1; -1];
    [1; 8; 3; 1; 9; 8; 5; 10; 6; -1; -1; -1; -1; -1; -1; -1];
    [1; 6; 5; 2; 6; 1; -1; -1; -1; -1; -1; -1; -1; -1; -1; -1];
    [1; 6; 5; 1; 2; 6; 3; 0; 8; -1; -1; -1; -1; -1; -1; -1];
    [9; 6; 5; 9; 0; 6; 0; 2; 6; -1; -1; -1; -1; -1; -1; -1];
    [5; 9; 8; 5; 8; 2; 5; 2; 6; 3; 2; 8; -1; -1; -1; -1];
    [2; 3; 11; 10; 6; 5; -1; -1; -1; -1; -1; -1; -1; -1; -1; -1];
    [11; 0; 8; 11; 2; 0; 10; 6; 5; -1; -1; -1; -1; -1; -1; -1];
    [0; 1; 9; 2; 3; 11; 5; 10; 6; -1; -1; -1; -1; -1; -1; -1];
    [5; 10; 6; 1; 9; 2; 9; 11; 2; 9; 8; 11; -1; -1; -1; -1];
    [6; 3; 11; 6; 5; 3; 5; 1; 3; -1; -1; -1; -1; -1; -1; -1];
    [0; 8; 11; 0; 11; 5; 0; 5; 1; 5; 11; 6; -1; -1; -1; -1];
    [3; 11; 6; 0; 3; 6; 0; 6; 5; 0; 5; 9; -1; -1; -1; -1];
    [6; 5; 9; 6; 9; 11; 11; 9; 8; -1; -1; -1; -1; -1; -1; -1];
    [5; 10; 6; 4; 7; 8; -1; -1; -1; -1; -1; -1; -1; -1; -1; -1];
    [4; 3; 0; 4; 7; 3; 6; 5; 10; -1; -1; -1; -1; -1; -1; -1];
    [1; 9; 0; 5; 10; 6; 8; 4; 7; -1; -1; -1; -1; -1; -1; -1];
    [10; 6; 5; 1; 9; 7; 1; 7; 3; 7; 9; 4; -1; -1; -1; -1];
    [6; 1; 2; 6; 5; 1; 4; 7; 8; -1; -1; -1; -1; -1; -1; -1];
    [1; 2; 5; 5; 2; 6; 3; 0; 4; 3; 4; 7; -1; -1; -1; -1];
    [8; 4; 7; 9; 0; 5; 0; 6; 5; 0; 2; 6; -1; -1; -1; -1];
    [7; 3; 9; 7; 9; 4; 3; 2; 9; 5; 9; 6; 2; 6; 9; -1];
    [3; 11; 2; 7; 8; 4; 10; 6; 5; -1; -1; -1; -1; -1; -1; -1];
    [5; 10; 6; 4; 7; 2; 4; 2; 0; 2; 7; 11; -1; -1; -1; -1];
    [0; 1; 9; 4; 7; 8; 2; 3; 11; 5; 10; 6; -1; -1; -1; -1];
    [9; 2; 1; 9; 11; 2; 9; 4; 11; 7; 11; 4; 5; 10; 6; -1];
    [8; 4; 7; 3; 11; 5; 3; 5; 1; 5; 11; 6; -1; -1; -1; -1];
    [5; 1; 11; 5; 11; 6; 1; 0; 11; 7; 11; 4; 0; 4; 11; -1];
    [0; 5; 9; 0; 6; 5; 0; 3; 6; 11; 6; 3; 8; 4; 7; -1];
    [6; 5; 9; 6; 9; 11; 4; 7; 9; 7; 11; 9; -1; -1; -1; -1];
    [10; 4; 9; 6; 4; 10; -1; -1; -1; -1; -1; -1; -1; -1; -1; -1];
    [4; 10; 6; 4; 9; 10; 0; 8; 3; -1; -1; -1; -1; -1; -1; -1];
    [10; 0; 1; 10; 6; 0; 6; 4; 0; -1; -1; -1; -1; -1; -1; -1];
    [8; 3; 1; 8; 1; 6; 8; 6; 4; 6; 1; 10; -1; -1; -1; -1];
    [1; 4; 9; 1; 2; 4; 2; 6; 4; -1; -1; -1; -1; -1; -1; -1];
    [3; 0; 8; 1; 2; 9; 2; 4; 9; 2; 6; 4; -1; -1; -1; -1];
    [0; 2; 4; 4; 2; 6; -1; -1; -1; -1; -1; -1; -1; -1; -1; -1];
    [8; 3; 2; 8; 2; 4; 4; 2; 6; -1; -1; -1; -1; -1; -1; -1];
    [10; 4; 9; 10; 6; 4; 11; 2; 3; -1; -1; -1; -1; -1; -1; -1];
    [0; 8; 2; 2; 8; 11; 4; 9; 10; 4; 10; 6; -1; -1; -1; -1];
    [3; 11; 2; 0; 1; 6; 0; 6; 4; 6; 1; 10; -1; -1; -1; -1];
    [6; 4; 1; 6; 1; 10; 4; 8; 1; 2; 1; 11; 8; 11; 1; -1];
    [9; 6; 4; 9; 3; 6; 9; 1; 3; 11; 6; 3; -1; -1; -1; -1];
    [8; 11; 1; 8; 1; 0; 11; 6; 1; 9; 1; 4; 6; 4; 1; -1];
    [3; 11; 6; 3; 6; 0; 0; 6; 4; -1; -1; -1; -1; -1; -1; -1];
    [6; 4; 8; 11; 6; 8; -1; -1; -1; -1; -1; -1; -1; -1; -1; -1];
    [7; 10; 6; 7; 8; 10; 8; 9; 10; -1; -1; -1; -1; -1; -1; -1];
    [0; 7; 3; 0; 10; 7; 0; 9; 10; 6; 7; 10; -1; -1; -1; -1];
    [10; 6; 7; 1; 10; 7; 1; 7; 8; 1; 8; 0; -1; -1; -1; -1];
    [10; 6; 7; 10; 7; 1; 1; 7; 3; -1; -1; -1; -1; -1; -1; -1];
    [1; 2; 6; 1; 6; 8; 1; 8; 9; 8; 6; 7; -1; -1; -1; -1];
    [2; 6; 9; 2; 9; 1; 6; 7; 9; 0; 9; 3; 7; 3; 9; -1];
    [7; 8; 0; 7; 0; 6; 6; 0; 2; -1; -1; -1; -1; -1; -1; -1];
    [7; 3; 2; 6; 7; 2; -1; -1; -1; -1; -1; -1; -1; -1; -1; -1];
    [2; 3; 11; 10; 6; 8; 10; 8; 9; 8; 6; 7; -1; -1; -1; -1];
    [2; 0; 7; 2; 7; 11; 0; 9; 7; 6; 7; 10; 9; 10; 7; -1];
    [1; 8; 0; 1; 7; 8; 1; 10; 7; 6; 7; 10; 2; 3; 11; -1];
    [11; 2; 1; 11; 1; 7; 10; 6; 1; 6; 7; 1; -1; -1; -1; -1];
    [8; 9; 6; 8; 6; 7; 9; 1; 6; 11; 6; 3; 1; 3; 6; -1];
    [0; 9; 1; 11; 6; 7; -1; -1; -1; -1; -1; -1; -1; -1; -1; -1];
    [7; 8; 0; 7; 0; 6; 3; 11; 0; 11; 6; 0; -1; -1; -1; -1];
    [7; 11; 6; -1; -1; -1; -1; -1; -1; -1; -1; -1; -1; -1; -1; -1];
    [7; 6; 11; -1; -1; -1; -1; -1; -1; -1; -1; -1; -1; -1; -1; -1];
    [3; 0; 8; 11; 7; 6; -1; -1; -1; -1; -1; -1; -1; -1; -1; -1];
    [0; 1; 9; 11; 7; 6; -1; -1; -1; -1; -1; -1; -1; -1; -1; -1];
    [8; 1; 9; 8; 3; 1; 11; 7; 6; -1; -1; -1; -1; -1; -1; -1];
    [10; 1; 2; 6; 11; 7; -1; -1; -1; -1; -1; -1; -1; -1; -1; -1];
    [1; 2; 10; 3; 0; 8; 6; 11; 7; -1; -1; -1; -1; -1; -1; -1];
    [2; 9; 0; 2; 10; 9; 6; 11; 7; -1; -1; -1; -1; -1; -1; -1];
    [6; 11; 7; 2; 10; 3; 10; 8; 3; 10; 9; 8; -1; -1; -1; -1];
    [7; 2; 3; 6; 2; 7; -1; -1; -1; -1; -1; -1; -1; -1; -1; -1];
    [7; 0; 8; 7; 6; 0; 6; 2; 0; -1; -1; -1; -1; -1; -1; -1];
    [2; 7; 6; 2; 3; 7; 0; 1; 9; -1; -1; -1; -1; -1; -1; -1];
    [1; 6; 2; 1; 8; 6; 1; 9; 8; 8; 7; 6; -1; -1; -1; -1];
    [10; 7; 6; 10; 1; 7; 1; 3; 7; -1; -1; -1; -1; -1; -1; -1];
    [10; 7; 6; 1; 7; 10; 1; 8; 7; 1; 0; 8; -1; -1; -1; -1];
    [0; 3; 7; 0; 7; 10; 0; 10; 9; 6; 10; 7; -1; -1; -1; -1];
    [7; 6; 10; 7; 10; 8; 8; 10; 9; -1; -1; -1; -1; -1; -1; -1];
    [6; 8; 4; 11; 8; 6; -1; -1; -1; -1; -1; -1; -1; -1; -1; -1];
    [3; 6; 11; 3; 0; 6; 0; 4; 6; -1; -1; -1; -1; -1; -1; -1];
    [8; 6; 11; 8; 4; 6; 9; 0; 1; -1; -1; -1; -1; -1; -1; -1];
    [9; 4; 6; 9; 6; 3; 9; 3; 1; 11; 3; 6; -1; -1; -1; -1];
    [6; 8; 4; 6; 11; 8; 2; 10; 1; -1; -1; -1; -1; -1; -1; -1];
    [1; 2; 10; 3; 0; 11; 0; 6; 11; 0; 4; 6; -1; -1; -1; -1];
    [4; 11; 8; 4; 6; 11; 0; 2; 9; 2; 10; 9; -1; -1; -1; -1];
    [10; 9; 3; 10; 3; 2; 9; 4; 3; 11; 3; 6; 4; 6; 3; -1];
    [8; 2; 3; 8; 4; 2; 4; 6; 2; -1; -1; -1; -1; -1; -1; -1];
    [0; 4; 2; 4; 6; 2; -1; -1; -1; -1; -1; -1; -1; -1; -1; -1];
    [1; 9; 0; 2; 3; 4; 2; 4; 6; 4; 3; 8; -1; -1; -1; -1];
    [1; 9; 4; 1; 4; 2; 2; 4; 6; -1; -1; -1; -1; -1; -1; -1];
    [8; 1; 3; 8; 6; 1; 8; 4; 6; 6; 10; 1; -1; -1; -1; -1];
    [10; 1; 0; 10; 0; 6; 6; 0; 4; -1; -1; -1; -1; -1; -1; -1];
    [4; 6; 3; 4; 3; 8; 6; 10; 3; 0; 3; 9; 10; 9; 3; -1];
    [10; 9; 4; 6; 10; 4; -1; -1; -1; -1; -1; -1; -1; -1; -1; -1];
    [4; 9; 5; 7; 6; 11; -1; -1; -1; -1; -1; -1; -1; -1; -1; -1];
    [0; 8; 3; 4; 9; 5; 11; 7; 6; -1; -1; -1; -1; -1; -1; -1];
    [5; 0; 1; 5; 4; 0; 7; 6; 11; -1; -1; -1; -1; -1; -1; -1];
    [11; 7; 6; 8; 3; 4; 3; 5; 4; 3; 1; 5; -1; -1; -1; -1];
    [9; 5; 4; 10; 1; 2; 7; 6; 11; -1; -1; -1; -1; -1; -1; -1];
    [6; 11; 7; 1; 2; 10; 0; 8; 3; 4; 9; 5; -1; -1; -1; -1];
    [7; 6; 11; 5; 4; 10; 4; 2; 10; 4; 0; 2; -1; -1; -1; -1];
    [3; 4; 8; 3; 5; 4; 3; 2; 5; 10; 5; 2; 11; 7; 6; -1];
    [7; 2; 3; 7; 6; 2; 5; 4; 9; -1; -1; -1; -1; -1; -1; -1];
    [9; 5; 4; 0; 8; 6; 0; 6; 2; 6; 8; 7; -1; -1; -1; -1];
    [3; 6; 2; 3; 7; 6; 1; 5; 0; 5; 4; 0; -1; -1; -1; -1];
    [6; 2; 8; 6; 8; 7; 2; 1; 8; 4; 8; 5; 1; 5; 8; -1];
    [9; 5; 4; 10; 1; 6; 1; 7; 6; 1; 3; 7; -1; -1; -1; -1];
    [1; 6; 10; 1; 7; 6; 1; 0; 7; 8; 7; 0; 9; 5; 4; -1];
    [4; 0; 10; 4; 10; 5; 0; 3; 10; 6; 10; 7; 3; 7; 10; -1];
    [7; 6; 10; 7; 10; 8; 5; 4; 10; 4; 8; 10; -1; -1; -1; -1];
    [6; 9; 5; 6; 11; 9; 11; 8; 9; -1; -1; -1; -1; -1; -1; -1];
    [3; 6; 11; 0; 6; 3; 0; 5; 6; 0; 9; 5; -1; -1; -1; -1];
    [0; 11; 8; 0; 5; 11; 0; 1; 5; 5; 6; 11; -1; -1; -1; -1];
    [6; 11; 3; 6; 3; 5; 5; 3; 1; -1; -1; -1; -1; -1; -1; -1];
    [1; 2; 10; 9; 5; 11; 9; 11; 8; 11; 5; 6; -1; -1; -1; -1];
    [0; 11; 3; 0; 6; 11; 0; 9; 6; 5; 6; 9; 1; 2; 10; -1];
    [11; 8; 5; 11; 5; 6; 8; 0; 5; 10; 5; 2; 0; 2; 5; -1];
    [6; 11; 3; 6; 3; 5; 2; 10; 3; 10; 5; 3; -1; -1; -1; -1];
    [5; 8; 9; 5; 2; 8; 5; 6; 2; 3; 8; 2; -1; -1; -1; -1];
    [9; 5; 6; 9; 6; 0; 0; 6; 2; -1; -1; -1; -1; -1; -1; -1];
    [1; 5; 8; 1; 8; 0; 5; 6; 8; 3; 8; 2; 6; 2; 8; -1];
    [1; 5; 6; 2; 1; 6; -1; -1; -1; -1; -1; -1; -1; -1; -1; -1];
    [1; 3; 6; 1; 6; 10; 3; 8; 6; 5; 6; 9; 8; 9; 6; -1];
    [10; 1; 0; 10; 0; 6; 9; 5; 0; 5; 6; 0; -1; -1; -1; -1];
    [0; 3; 8; 5; 6; 10; -1; -1; -1; -1; -1; -1; -1; -1; -1; -1];
    [10; 5; 6; -1; -1; -1; -1; -1; -1; -1; -1; -1; -1; -1; -1; -1];
    [11; 5; 10; 7; 5; 11; -1; -1; -1; -1; -1; -1; -1; -1; -1; -1];
    [11; 5; 10; 11; 7; 5; 8; 3; 0; -1; -1; -1; -1; -1; -1; -1];
    [5; 11; 7; 5; 10; 11; 1; 9; 0; -1; -1; -1; -1; -1; -1; -1];
    [10; 7; 5; 10; 11; 7; 9; 8; 1; 8; 3; 1; -1; -1; -1; -1];
    [11; 1; 2; 11; 7; 1; 7; 5; 1; -1; -1; -1; -1; -1; -1; -1];
    [0; 8; 3; 1; 2; 7; 1; 7; 5; 7; 2; 11; -1; -1; -1; -1];
    [9; 7; 5; 9; 2; 7; 9; 0; 2; 2; 11; 7; -1; -1; -1; -1];
    [7; 5; 2; 7; 2; 11; 5; 9; 2; 3; 2; 8; 9; 8; 2; -1];
    [2; 5; 10; 2; 3; 5; 3; 7; 5; -1; -1; -1; -1; -1; -1; -1];
    [8; 2; 0; 8; 5; 2; 8; 7; 5; 10; 2; 5; -1; -1; -1; -1];
    [9; 0; 1; 5; 10; 3; 5; 3; 7; 3; 10; 2; -1; -1; -1; -1];
    [9; 8; 2; 9; 2; 1; 8; 7; 2; 10; 2; 5; 7; 5; 2; -1];
    [1; 3; 5; 3; 7; 5; -1; -1; -1; -1; -1; -1; -1; -1; -1; -1];
    [0; 8; 7; 0; 7; 1; 1; 7; 5; -1; -1; -1; -1; -1; -1; -1];
    [9; 0; 3; 9; 3; 5; 5; 3; 7; -1; -1; -1; -1; -1; -1; -1];
    [9; 8; 7; 5; 9; 7; -1; -1; -1; -1; -1; -1; -1; -1; -1; -1];
    [5; 8; 4; 5; 10; 8; 10; 11; 8; -1; -1; -1; -1; -1; -1; -1];
    [5; 0; 4; 5; 11; 0; 5; 10; 11; 11; 3; 0; -1; -1; -1; -1];
    [0; 1; 9; 8; 4; 10; 8; 10; 11; 10; 4; 5; -1; -1; -1; -1];
    [10; 11; 4; 10; 4; 5; 11; 3; 4; 9; 4; 1; 3; 1; 4; -1];
    [2; 5; 1; 2; 8; 5; 2; 11; 8; 4; 5; 8; -1; -1; -1; -1];
    [0; 4; 11; 0; 11; 3; 4; 5; 11; 2; 11; 1; 5; 1; 11; -1];
    [0; 2; 5; 0; 5; 9; 2; 11; 5; 4; 5; 8; 11; 8; 5; -1];
    [9; 4; 5; 2; 11; 3; -1; -1; -1; -1; -1; -1; -1; -1; -1; -1];
    [2; 5; 10; 3; 5; 2; 3; 4; 5; 3; 8; 4; -1; -1; -1; -1];
    [5; 10; 2; 5; 2; 4; 4; 2; 0; -1; -1; -1; -1; -1; -1; -1];
    [3; 10; 2; 3; 5; 10; 3; 8; 5; 4; 5; 8; 0; 1; 9; -1];
    [5; 10; 2; 5; 2; 4; 1; 9; 2; 9; 4; 2; -1; -1; -1; -1];
    [8; 4; 5; 8; 5; 3; 3; 5; 1; -1; -1; -1; -1; -1; -1; -1];
    [0; 4; 5; 1; 0; 5; -1; -1; -1; -1; -1; -1; -1; -1; -1; -1];
    [8; 4; 5; 8; 5; 3; 9; 0; 5; 0; 3; 5; -1; -1; -1; -1];
    [9; 4; 5; -1; -1; -1; -1; -1; -1; -1; -1; -1; -1; -1; -1; -1];
    [4; 11; 7; 4; 9; 11; 9; 10; 11; -1; -1; -1; -1; -1; -1; -1];
    [0; 8; 3; 4; 9; 7; 9; 11; 7; 9; 10; 11; -1; -1; -1; -1];
    [1; 10; 11; 1; 11; 4; 1; 4; 0; 7; 4; 11; -1; -1; -1; -1];
    [3; 1; 4; 3; 4; 8; 1; 10; 4; 7; 4; 11; 10; 11; 4; -1];
    [4; 11; 7; 9; 11; 4; 9; 2; 11; 9; 1; 2; -1; -1; -1; -1];
    [9; 7; 4; 9; 11; 7; 9; 1; 11; 2; 11; 1; 0; 8; 3; -1];
    [11; 7; 4; 11; 4; 2; 2; 4; 0; -1; -1; -1; -1; -1; -1; -1];
    [11; 7; 4; 11; 4; 2; 8; 3; 4; 3; 2; 4; -1; -1; -1; -1];
    [2; 9; 10; 2; 7; 9; 2; 3; 7; 7; 4; 9; -1; -1; -1; -1];
    [9; 10; 7; 9; 7; 4; 10; 2; 7; 8; 7; 0; 2; 0; 7; -1];
    [3; 7; 10; 3; 10; 2; 7; 4; 10; 1; 10; 0; 4; 0; 10; -1];
    [1; 10; 2; 8; 7; 4; -1; -1; -1; -1; -1; -1; -1; -1; -1; -1];
    [4; 9; 1; 4; 1; 7; 7; 1; 3; -1; -1; -1; -1; -1; -1; -1];
    [4; 9; 1; 4; 1; 7; 0; 8; 1; 8; 7; 1; -1; -1; -1; -1];
    [4; 0; 3; 7; 4; 3; -1; -1; -1; -1; -1; -1; -1; -1; -1; -1];
    [4; 8; 7; -1; -1; -1; -1; -1; -1; -1; -1; -1; -1; -1; -1; -1];
    [9; 10; 8; 10; 11; 8; -1; -1; -1; -1; -1; -1; -1; -1; -1; -1];
    [3; 0; 9; 3; 9; 11; 11; 9; 10; -1; -1; -1; -1; -1; -1; -1];
    [0; 1; 10; 0; 10; 8; 8; 10; 11; -1; -1; -1; -1; -1; -1; -1];
    [3; 1; 10; 11; 3; 10; -1; -1; -1; -1; -1; -1; -1; -1; -1; -1];
    [1; 2; 11; 1; 11; 9; 9; 11; 8; -1; -1; -1; -1; -1; -1; -1];
    [3; 0; 9; 3; 9; 11; 1; 2; 9; 2; 11; 9; -1; -1; -1; -1];
    [0; 2; 11; 8; 0; 11; -1; -1; -1; -1; -1; -1; -1; -1; -1; -1];
    [3; 2; 11; -1; -1; -1; -1; -1; -1; -1; -1; -1; -1; -1; -1; -1];
    [2; 3; 8; 2; 8; 10; 10; 8; 9; -1; -1; -1; -1; -1; -1; -1];
    [9; 10; 2; 0; 9; 2; -1; -1; -1; -1; -1; -1; -1; -1; -1; -1];
    [2; 3; 8; 2; 8; 10; 0; 1; 8; 1; 10; 8; -1; -1; -1; -1];
    [1; 10; 2; -1; -1; -1; -1; -1; -1; -1; -1; -1; -1; -1; -1; -1];
    [1; 3; 8; 9; 1; 8; -1; -1; -1; -1; -1; -1; -1; -1; -1; -1];
    [0; 9; 1; -1; -1; -1; -1; -1; -1; -1; -1; -1; -1; -1; -1; -1];
    [0; 3; 8; -1; -1; -1; -1; -1; -1; -1; -1; -1; -1; -1; -1; -1];
    [-1; -1; -1; -1; -1; -1; -1; -1; -1; -1; -1; -1; -1; -1; -1; -1] ].

(** [int edges[12][2]]: the two corner indices of each cube edge.  The source
    declares the table and does not read it; the twelve assignments below
    name the same pairs. *)
Definition edges : list (nat * nat) :=
  [(0,1); (1,2); (2,3); (3,0); (4,5); (5,6); (6,7); (7,4);
   (0,4); (1,5); (2,6); (3,7)]%nat.

Local Close Scope Z_scope.

(** ** [marching_cubes] *)

(** The 8 corners of the box, in the order of the [vertices] array. *)
Definition cube_vertices (start end_ : Point3D) : list Point3D :=
  [ mkPoint3D (x start) (y start) (z start); mkPoint3D (x end_) (y start) (z start);
    mkPoint3D (x end_) (y end_) (z start);   mkPoint3D (x start) (y end_) (z start);
    mkPoint3D (x start) (y start) (z end_);  mkPoint3D (x end_) (y start) (z end_);
    mkPoint3D (x end_) (y end_) (z end_);    mkPoint3D (x start) (y end_) (z end_) ].

(** [for (i = 0; i < 8; i++) if (values[i] < 0) config |= (1 << i);] *)
Fixpoint config_of (values : list Q) (i : Z) (config : Z) : Z :=
  match values with
  | [] => config
  | v :: rest =>
      config_of rest (i + 1)%Z
                (if Qltb v 0 then Z.lor config (Z.shiftl 1 i) else config)
  end.

(** One guarded assignment
    [if (edgeTable[config] & mask) edge_points[k] = interpolate_3d(vertices[a], vertices[b], values[a], values[b])].
    A slot is [Some p] once the program has assigned it and [None] while it
    still holds its default-constructed value. *)
Definition crossing (et : Z) (vertices : list Point3D) (values : list Q)
                    (mask : Z) (a b : nat) : option Point3D :=
  if (Z.land et mask =? 0)%Z then None
  else Some (interpolate_3d (nth a vertices Point3D_default)
                            (nth b vertices Point3D_default)
                            (nth a values 0) (nth b values 0)).

(** [Point3D edge_points[12]] after the twelve guarded assignments. *)
Definition edge_points (et : Z) (vertices : list Point3D) (values : list Q)
  : list (option Point3D) :=
  let c := crossing et vertices values in
  [ c 1%Z 0 1;    c 2%Z 1 2;    c 4%Z 2 3;     c 8%Z 3 0;
    c 16%Z 4 5;   c 32%Z 5 6;   c 64%Z 6 7;    c 128%Z 7 4;
    c 256%Z 0 4;  c 512%Z 1 5;  c 1024%Z 2 6;  c 2048%Z 3 7 ]%nat.

(** [edge_points[e]]: an unassigned slot reads as the default point. *)
Definition edge_point (eps : list (option Point3D)) (e : Z) : Point3D :=
  if (e <? 0)%Z then Point3D_default
  else match nth_error eps (Z.to_nat e) with
       | Some (Some p) => p
       | _ => Point3D_default
       end.

(** [for (i = 0; triTable[config][i] != -1; i += 3) triangles.push_back(...)],
    on the row [triTable[config]] from position [i] on.  Every row of the
    table holds a [-1] at a position that is a multiple of 3 (lemma
    [triTable_rows]), so the last case is never reached. *)
Fixpoint assemble (row : list Z) (eps : list (option Point3D)) : list Triangle :=
  match row with
  | a :: b :: c :: rest =>
      if (a =? -1)%Z then []
      else mkTriangle (edge_point eps a) (edge_point eps b) (edge_point eps c)
             :: assemble rest eps
  | _ => []
  end.

(** [edgeTable[config]] and the row [triTable[config]]. *)
Definition edge_entry (config : Z) : Z := nth (Z.to_nat config) edgeTable 0%Z.
Definition tri_row (config : Z) : list Z := nth (Z.to_nat config) triTable [].

Definition cube_config (start end_ : Point3D) (f : field) : Z :=
  config_of (map (eval f) (cube_vertices start end_)) 0 0.

Definition marching_cubes (start end_ : Point3D) (f : field) : list Triangle :=
  let vertices := cube_vertices start end_ in
  let values := map (eval f) vertices in
  let config := config_of values 0 0 in
  if (edge_entry config =? 0)%Z then []
  else assemble (tri_row config)
                (edge_points (edge_entry config) vertices values).

(** ** Writing the mesh: the output part of [draw_surface] *)

(** One line of the output file.  The decimal printing of a [double] is not
    modelled: a vertex line carries the coordinates it prints. *)
Inductive line : Type :=
| Text (s : string)            (* a fixed line of text *)
| TriangleCount (n : nat)      (* "# <n> triangles" *)
| V (vx vy vz : Q)             (* "v <x> <y> <z>" *)
| F (a b c : Z).               (* "f <a> <b> <c>" *)

(** [for (const auto& triangle : triangles)]: three vertex lines each. *)
Fixpoint vertex_lines (triangles : list Triangle) : list line :=
  match triangles with
  | [] => []
  | t :: rest =>
      V (x (p1 t)) (y (p1 t)) (z (p1 t))
      :: V (x (p2 t)) (y (p2 t)) (z (p2 t))
      :: V (x (p3 t)) (y (p3 t)) (z (p3 t))
      :: vertex_lines rest
  end.

(** [for (int i = 0; i < triangles.size(); i++)] with [n] iterations left:
    [int base = i * 6 + 1] and one face line. *)
Fixpoint face_lines (n : nat) (i : Z) : list line :=
  match n with
  | O => []
  | S n' =>
      let base := (i * 6 + 1)%Z in
      F base (base + 1)%Z (base + 2)%Z :: face_lines n' (i + 1)%Z
  end.

(** Everything [draw_surface] writes to an opened file. *)
Definition write_mesh (triangles : list Triangle) : list line :=
  [ Text "# Marching Cubes Output - Double-sided";
    TriangleCount (length triangles);
    Text "" ]
  ++ vertex_lines triangles
  ++ face_lines (length triangles) 0%Z.

(** What a call of [draw_surface] leaves behind. *)
Inductive written : Type :=
| NoFile                       (* the file could not be opened *)
| File (content : list line).

Section Polygonize.

(** [RAND_MAX] of the C library. *)
Variable RAND_MAX : Z.

(** ** [rand()] *)

(** The values [rand()] hands to one caller: [src k] is the result of the
    caller's [k]-th call (from 0).  The number of calls made so far is the
    state that the sampling code threads. *)
Definition rand_source : Type := N -> Z.

Definition rand (src : rand_source) (k : N) : Z * N := (src k, N.succ k).

(** ** [get_random_point_3d] *)

(** Three calls of [rand()], one per coordinate, in the order x, y, z.  When
    [xmax = xmin] the C++ quotient [RAND_MAX / 0.0] is infinite and the draw
    divided by it is 0; [Q] has [a / 0 = 0], which gives the same coordinate
    [xmin]. *)
Definition get_random_point_3d (src : rand_source)
    (xmin ymin zmin xmax ymax zmax : Q) (k : N) : Point3D * N :=
  let '(r, k) := rand src k in
  let x := xmin + inject_Z r / (inject_Z RAND_MAX / (xmax - xmin)) in
  let '(r, k) := rand src k in
  let y := ymin + inject_Z r / (inject_Z RAND_MAX / (ymax - ymin)) in
  let '(r, k) := rand src k in
  let z := zmin + inject_Z r / (inject_Z RAND_MAX / (zmax - zmin)) in
  (mkPoint3D x y z, k).

(** ** [cube_contains_surface] *)

(** The first loop: [n] calls of [get_random_point_3d], pushed in order;
    [k] calls of [rand()] have been made before. *)
Fixpoint random_samples (n : nat) (src : rand_source) (start end_ : Point3D)
    (k : N) : list Point3D :=
  match n with
  | O => []
  | S n' =>
      let '(p, k) := get_random_point_3d src (x start) (y start) (z start)
                                             (x end_) (y end_) (z end_) k in
      p :: random_samples n' src start end_ k
  end.

(** One iteration's update of the two flags. *)
Definition observe (value : Q) (has_positive has_negative : bool) : bool * bool :=
  if Qgeb value 0 then (true, has_negative)
  else if Qltb value 0 then (has_positive, true)
  else (has_positive, has_negative).

(** The second loop.  The result carries, next to the returned boolean, the
    number of samples at which the field was evaluated. *)
Fixpoint scan_samples (f : field) (samples : list Point3D)
    (has_positive has_negative : bool) (evaluated : nat) : bool * nat :=
  match samples with
  | [] => (false, evaluated)
  | p :: rest =>
      let value := eval f p in
      let '(hp, hn) := observe value has_positive has_negative in
      if hp && hn then (true, S evaluated)
      else scan_samples f rest hp hn (S evaluated)
  end.

Definition SAMPLES : nat := Z.to_nat 10000.

Definition cube_contains_surface (f : field) (start end_ : Point3D)
    (src : rand_source) : bool :=
  let random_samples := random_samples SAMPLES src start end_ 0%N in
  fst (scan_samples f random_samples false false 0).

(** ** [surface_to_triangles] *)

(** The eight recursive calls run as OpenMP tasks and all of them, at every
    depth, call the one [rand()].  Which values a given probe receives depends
    on the schedule, so the model is parameterised by them: a [rand_tree]
    gives, for the node of the recursion reached through the octant numbers
    [path] (root first), the values its probe draws.  Taking each call of
    [rand()] as atomic, every schedule is some [rand_tree]. *)
Definition rand_tree : Type := list nat -> rand_source.

Definition subtree (rt : rand_tree) (i : nat) : rand_tree :=
  fun path => rt (i :: path).

(** The join ([taskwait]): the slots [sub_results[0..7]] once every task has
    returned; [None] if one of them has not. *)
Fixpoint join {A : Type} (slots : list (option A)) : option (list A) :=
  match slots with
  | [] => Some []
  | None :: _ => None
  | Some r :: rest =>
      match join rest with
      | None => None
      | Some rs => Some (r :: rs)
      end
  end.

Definition is_leaf (start end_ : Point3D) (precision : Q) : bool :=
  Qltb (x end_ - x start) precision
  || Qltb (y end_ - y start) precision
  || Qltb (z end_ - z start) precision.

Definition midpoint (start end_ : Point3D) : Point3D :=
  mkPoint3D ((x start + x end_) / 2) ((y start + y end_) / 2)
            ((z start + z end_) / 2).

(** The boxes of the eight tasks, in the order of their slots. *)
Definition octants (start end_ : Point3D) : list (Point3D * Point3D) :=
  let mid := midpoint start end_ in
  let mid_x := x mid in
  let mid_y := y mid in
  let mid_z := z mid in
  [ (start, mid);
    (mkPoint3D mid_x (y start) (z start), mkPoint3D (x end_) mid_y mid_z);
    (mkPoint3D (x start) mid_y (z start), mkPoint3D mid_x (y end_) mid_z);
    (mkPoint3D mid_x mid_y (z start), mkPoint3D (x end_) (y end_) mid_z);
    (mkPoint3D (x start) (y start) mid_z, mkPoint3D mid_x mid_y (z end_));
    (mkPoint3D mid_x (y start) mid_z, mkPoint3D (x end_) mid_y (z end_));
    (mkPoint3D (x start) mid_y mid_z, mkPoint3D mid_x (y end_) (z end_));
    (mid, end_) ].

(** The recursion is not structural and, for some inputs, does not end, so
    the model counts depth: [fuel] is the number of nested calls allowed, and
    [None] means that it did not suffice. *)
Fixpoint surface_to_triangles (fuel : nat) (f : field) (start end_ : Point3D)
    (precision : Q) (rt : rand_tree) : option (list Triangle) :=
  match fuel with
  | O => None
  | S fuel' =>
      if is_leaf start end_ precision then Some (marching_cubes start end_ f)
      else if negb (cube_contains_surface f start end_ (rt [])) then Some []
      else
        let mid_x := (x start + x end_) / 2 in
        let mid_y := (y start + y end_) / 2 in
        let mid_z := (z start + z end_) / 2 in
        let mid := mkPoint3D mid_x mid_y mid_z in
        let task (i : nat) (s e : Point3D) :=
          surface_to_triangles fuel' f s e precision (subtree rt i) in
        match join
          [ task 0%nat start mid;
            task 1%nat (mkPoint3D mid_x (y start) (z start)) (mkPoint3D (x end_) mid_y mid_z);
            task 2%nat (mkPoint3D (x start) mid_y (z start)) (mkPoint3D mid_x (y end_) mid_z);
            task 3%nat (mkPoint3D mid_x mid_y (z start)) (mkPoint3D (x end_) (y end_) mid_z);
            task 4%nat (mkPoint3D (x start) (y start) mid_z) (mkPoint3D mid_x mid_y (z end_));
            task 5%nat (mkPoint3D mid_x (y start) mid_z) (mkPoint3D (x end_) mid_y (z end_));
            task 6%nat (mkPoint3D (x start) mid_y mid_z) (mkPoint3D mid_x (y end_) (z end_));
            task 7%nat mid end_ ]
        with
        | None => None
        | Some sub_results => Some (concat sub_results)
        end
  end.

(** ** [draw_surface] *)

Definition draw_surface (fuel : nat) (f : field) (is_open : bool)
    (xmin ymin zmin xmax ymax zmax precision : Q) (rt : rand_tree)
  : option written :=
  if negb is_open then Some NoFile
  else
    let start := mkPoint3D xmin ymin zmin in
    let end_ := mkPoint3D xmax ymax zmax in
    match surface_to_triangles fuel f start end_ precision rt with
    | None => None
    | Some triangles => Some (File (write_mesh triangles))
    end.

End Polygonize.

(** * Vocabulary of the statements *)



(** The edge indices the assembly loop reads from a row, in reading order. *)
Fixpoint tri_reads (row : list Z) : list Z :=
  match row with
  | a :: b :: c :: rest =>
      if (a =? -1)%Z then [] else a :: b :: c :: tri_reads rest
  | _ => []
  end.

(** The row entries that precede the first [-1]. *)
Fixpoint before_sentinel (row : list Z) : list Z :=
  match row with
  | [] => []
  | a :: rest => if (a =? -1)%Z then [] else a :: before_sentinel rest
  end.

(** A monitored reading of [edge_points[e]]: [None] when [e] is not one of the
    slots or the slot was never assigned. *)
Definition assigned_point (eps : list (option Point3D)) (e : Z) : option Point3D :=
  if (e <? 0)%Z then None
  else match nth_error eps (Z.to_nat e) with
       | Some (Some p) => Some p
       | _ => None
       end.

(** The assembly loop under that monitor: [None] as soon as the loop would
    read an unassigned slot, or would run past the end of the row. *)
Fixpoint assemble_checked (row : list Z) (eps : list (option Point3D))
  : option (list Triangle) :=
  match row with
  | a :: b :: c :: rest =>
      if (a =? -1)%Z then Some []
      else match assigned_point eps a, assigned_point eps b,
                 assigned_point eps c, assemble_checked rest eps with
           | Some pa, Some pb, Some pc, Some ts =>
               Some (mkTriangle pa pb pc :: ts)
           | _, _, _, _ => None
           end
  | a :: _ => if (a =? -1)%Z then Some [] else None
  | [] => None
  end.

Local Open Scope Z_scope.

(** An edge index is usable under an [edgeTable] entry when it names one of
    the 12 slots and its bit is set in the entry. *)
Definition flagged (et e : Z) : bool :=
  (0 <=? e) && (e <? 12) && Z.testbit et e.

(** The loop over a row stops inside the row: it meets a [-1] at a position
    that is a multiple of 3. *)
Fixpoint stops_at_sentinel (row : list Z) : bool :=
  match row with
  | a :: b :: c :: rest => (a =? -1) || stops_at_sentinel rest
  | a :: _ => a =? -1
  | [] => false
  end.

(** The check made of every configuration: the row has 16 entries, the loop
    stops inside it, each index it reads is flagged in the [edgeTable] entry,
    and what it reads is what precedes the first [-1]. *)
Definition config_ok (c : Z) : bool :=
  (length (tri_row c) =? 16)%nat && stops_at_sentinel (tri_row c)
  && forallb (flagged (edge_entry c)) (tri_reads (tri_row c))
  && (if list_eq_dec Z.eq_dec (tri_reads (tri_row c)) (before_sentinel (tri_row c))
      then true else false).

Local Close Scope Z_scope.

(** The points of the box with corners [start] and [end_]. *)
Definition in_box (start end_ p : Point3D) : Prop :=
  (x start <= x p <= x end_) /\ (y start <= y p <= y end_)
  /\ (z start <= z p <= z end_).



(** Whether a list of samples holds a point where the field is [>= 0], a
    point where it is [< 0], and both. *)
Definition any_nonneg (f : field) (l : list Point3D) : bool :=
  existsb (fun p => Qgeb (eval f p) 0) l.

Definition any_neg (f : field) (l : list Point3D) : bool :=
  existsb (fun p => Qltb (eval f p) 0) l.

Definition both_signs (f : field) (l : list Point3D) : bool :=
  any_nonneg f l && any_neg f l.


(** The value of [RAND_MAX] in the GNU C library. *)
Definition glibc_RAND_MAX : Z := 2147483647.

(** The plane x = 0 as a field, the box from (-1,-1,-1) to (1,1,1), and a
    point outside it. *)
Definition plane_x : field := fun qx _ _ => qx.

Definition unit_lo : Point3D := mkPoint3D (-1) (-1) (-1).
Definition unit_hi : Point3D := mkPoint3D 1 1 1.
Definition sphere_hi : Point3D := mkPoint3D 2 2 2.

(** Two sequences of rand values: all of them 0, and all 0 but the draw
    number 3 (the x coordinate of the second sample), which is [RAND_MAX]. *)
Definition draws_zero : rand_source := fun _ => 0%Z.
Definition draws_spread : rand_source :=
  fun k => if (k =? 3)%N then glibc_RAND_MAX else 0%Z.

Definition tree_zero : rand_tree := fun _ => draws_zero.
Definition tree_spread : rand_tree := fun _ => draws_spread.

Section Vocabulary.

Variable RAND_MAX : Z.

(** The coordinate that [get_random_point_3d] makes of one draw [r]. *)
Definition scaled (lo hi : Q) (r : Z) : Q :=
  lo + inject_Z r / (inject_Z RAND_MAX / (hi - lo)).

Definition sample_at (src : rand_source) (start end_ : Point3D) (k : N) : Point3D :=
  mkPoint3D (scaled (x start) (x end_) (src k))
            (scaled (y start) (y end_) (src (N.succ k)))
            (scaled (z start) (z end_) (src (N.succ (N.succ k)))).

(** The slots [sub_results[i], sub_results[i+1], ...] for the boxes [boxes]:
    the task of slot [j] runs on the rand values of the subtree [j]. *)
Fixpoint tasks (fuel : nat) (f : field) (precision : Q) (rt : rand_tree)
    (boxes : list (Point3D * Point3D)) (i : nat)
  : list (option (list Triangle)) :=
  match boxes with
  | [] => []
  | (s, e) :: rest =>
      surface_to_triangles RAND_MAX fuel f s e precision (subtree rt i)
      :: tasks fuel f precision rt rest (S i)
  end.

End Vocabulary.

(** * Properties *)

(** ** Comparisons *)

Lemma Qltb_true (a b : Q) : Qltb a b = true <-> a < b.
Proof.
  unfold Qltb. rewrite negb_true_iff. split.
  - intros H. apply Qnot_le_lt. intros Hle.
    apply Qle_bool_iff in Hle. congruence.
  - intros H. destruct (Qle_bool b a) eqn:E; [| reflexivity].
    apply Qle_bool_iff in E. apply Qle_not_lt in E. contradiction.
Qed.

Lemma Qltb_false (a b : Q) : Qltb a b = false <-> b <= a.
Proof.
  unfold Qltb. rewrite negb_false_iff. apply Qle_bool_iff.
Qed.


Lemma Qgeb_false (a b : Q) : Qgeb a b = false <-> a < b.
Proof.
  unfold Qgeb. split.
  - intros H. apply Qnot_le_lt. intros Hle.
    apply Qle_bool_iff in Hle. congruence.
  - intros H. destruct (Qle_bool b a) eqn:E; [| reflexivity].
    apply Qle_bool_iff in E. apply Qle_not_lt in E. contradiction.
Qed.

(** ** [interpolate_3d] *)




(** ** The tables and [marching_cubes] *)

Local Open Scope Z_scope.

Lemma tables_checked :
  length edgeTable = 256%nat /\ length triTable = 256%nat
  /\ forallb config_ok (map Z.of_nat (seq 0 256)) = true.
Proof. vm_compute. repeat split. Qed.

Lemma config_ok_all (c : Z) : 0 <= c < 256 -> config_ok c = true.
Proof.
  intros Hc.
  destruct tables_checked as (_ & _ & H).
  rewrite forallb_forall in H. apply H.
  apply in_map_iff. exists (Z.to_nat c). split; [lia |].
  apply in_seq. lia.
Qed.

Lemma config_ok_parts (c : Z) :
  0 <= c < 256 ->
  length (tri_row c) = 16%nat
  /\ stops_at_sentinel (tri_row c) = true
  /\ forallb (flagged (edge_entry c)) (tri_reads (tri_row c)) = true
  /\ tri_reads (tri_row c) = before_sentinel (tri_row c).
Proof.
  intros Hc. pose proof (config_ok_all c Hc) as H.
  unfold config_ok in H.
  rewrite !andb_true_iff in H. destruct H as (((H1 & H2) & H3) & H4).
  repeat split; try assumption.
  - apply Nat.eqb_eq, H1.
  - destruct (list_eq_dec Z.eq_dec (tri_reads (tri_row c))
                (before_sentinel (tri_row c))); [assumption | discriminate].
Qed.

Lemma triTable_rows (c : Z) :
  0 <= c < 256 ->
  length (tri_row c) = 16%nat /\ stops_at_sentinel (tri_row c) = true.
Proof.
  intros Hc. destruct (config_ok_parts c Hc) as (H1 & H2 & _).
  split; assumption.
Qed.

Lemma tri_reads_flagged (c : Z) :
  0 <= c < 256 ->
  Forall (fun e => 0 <= e < 12 /\ Z.testbit (edge_entry c) e = true)
         (tri_reads (tri_row c)).
Proof.
  intros Hc. destruct (config_ok_parts c Hc) as (_ & _ & H & _).
  rewrite forallb_forall in H.
  apply Forall_forall. intros e He.
  specialize (H e He). unfold flagged in H.
  rewrite !andb_true_iff in H. destruct H as ((H1 & H2) & H3).
  split; [lia | exact H3].
Qed.

(** [x & 2^k] is non-zero exactly when bit [k] of [x] is set. *)
Lemma land_pow2 (et k : Z) :
  0 <= k -> (Z.land et (2 ^ k) =? 0) = negb (Z.testbit et k).
Proof.
  intros Hk.
  destruct (Z.testbit et k) eqn:E; simpl.
  - apply Z.eqb_neq. intros H0.
    assert (Ht : Z.testbit (Z.land et (2 ^ k)) k = true).
    { rewrite Z.land_spec, E, Z.pow2_bits_true by lia. reflexivity. }
    rewrite H0, Z.bits_0 in Ht. discriminate.
  - apply Z.eqb_eq. apply Z.bits_inj'. intros n Hn.
    rewrite Z.land_spec, Z.bits_0.
    destruct (Z.eq_dec n k) as [-> | Hne].
    + rewrite E. reflexivity.
    + rewrite Z.pow2_bits_false by lia. apply andb_false_r.
Qed.

Lemma crossing_assigned (et : Z) vertices values (k : Z) (a b : nat) :
  0 <= k ->
  (exists p, crossing et vertices values (2 ^ k) a b = Some p)
  <-> Z.testbit et k = true.
Proof.
  intros Hk. unfold crossing. rewrite land_pow2 by assumption.
  destruct (Z.testbit et k); simpl; split; intros H;
    try reflexivity; try discriminate; try (destruct H; discriminate).
  eexists; reflexivity.
Qed.

(** Slot [k] of [edge_points] has been assigned exactly when bit [k] of the
    [edgeTable] entry is set. *)
Lemma edge_points_assigned (et : Z) vertices values (k : nat) :
  (k < 12)%nat ->
  (exists p, nth_error (edge_points et vertices values) k = Some (Some p))
  <-> Z.testbit et (Z.of_nat k) = true.
Proof.
  intros Hk. unfold edge_points.
  do 12 (destruct k as [| k];
         [ simpl nth_error;
           match goal with
           | |- context [crossing _ _ _ ?m ?a ?b] =>
               let e := eval vm_compute in (Z.log2 m) in
               change m with (2 ^ e);
               rewrite <- (crossing_assigned et vertices values e a b) by lia
           end;
           split; intros [p Hp]; exists p; congruence
         | ]).
  lia.
Qed.

Local Close Scope Z_scope.

Lemma cube_config_range (start end_ : Point3D) (f : field) :
  (0 <= cube_config start end_ f < 256)%Z.
Proof.
  unfold cube_config, cube_vertices. simpl map. unfold config_of.
  repeat match goal with
         | |- context [Qltb ?a ?b] => destruct (Qltb a b)
         end;
    vm_compute; split; congruence.
Qed.

(** Induction on a list three elements at a time, as the assembly loop
    walks a row. *)
Lemma list_ind3 {A : Type} (P : list A -> Prop) :
  P [] -> (forall a, P [a]) -> (forall a b, P [a; b]) ->
  (forall a b c rest, P rest -> P (a :: b :: c :: rest)) ->
  forall l, P l.
Proof.
  intros H0 H1 H2 H3.
  fix IH 1. intros [| a [| b [| c rest]]].
  - exact H0.
  - apply H1.
  - apply H2.
  - apply H3, IH.
Qed.

Lemma assigned_point_read eps e p :
  assigned_point eps e = Some p -> edge_point eps e = p.
Proof.
  unfold assigned_point, edge_point.
  destruct (e <? 0)%Z; [discriminate |].
  destruct (nth_error eps (Z.to_nat e)) as [[q |] |]; congruence.
Qed.

Lemma assemble_checked_ok (eps : list (option Point3D)) (row : list Z) :
  stops_at_sentinel row = true ->
  Forall (fun e => exists p, assigned_point eps e = Some p) (tri_reads row) ->
  assemble_checked row eps = Some (assemble row eps).
Proof.
  induction row as [| a | a b | a b c rest IH] using list_ind3;
    simpl; intros Hs Hr.
  - discriminate.
  - rewrite Hs. reflexivity.
  - rewrite Hs. reflexivity.
  - destruct (a =? -1)%Z eqn:Ea; [reflexivity |].
    simpl in Hs.
    inversion Hr as [| ? ? [pa Ha] Hr1]; subst.
    inversion Hr1 as [| ? ? [pb Hb] Hr2]; subst.
    inversion Hr2 as [| ? ? [pc Hc] Hr3]; subst.
    rewrite Ha, Hb, Hc, (IH Hs Hr3).
    rewrite (assigned_point_read _ _ _ Ha), (assigned_point_read _ _ _ Hb),
      (assigned_point_read _ _ _ Hc).
    reflexivity.
Qed.

Lemma tri_reads_before_sentinel (c : Z) :
  (0 <= c < 256)%Z -> tri_reads (tri_row c) = before_sentinel (tri_row c).
Proof.
  intros Hc. apply (config_ok_parts c Hc).
Qed.

Lemma reads_assigned (et : Z) vertices values (row : list Z) :
  Forall (fun e => (0 <= e < 12)%Z /\ Z.testbit et e = true) row ->
  Forall (fun e => exists p,
              assigned_point (edge_points et vertices values) e = Some p) row.
Proof.
  intros H. eapply Forall_impl; [| exact H].
  intros e [He Hb]. cbv beta.
  destruct (edge_points_assigned et vertices values (Z.to_nat e)) as [_ Hex];
    [lia |].
  rewrite Z2Nat.id in Hex by lia.
  destruct (Hex Hb) as [p Hp]. exists p.
  unfold assigned_point.
  destruct (e <? 0)%Z eqn:E; [apply Z.ltb_lt in E; lia |].
  rewrite Hp. reflexivity.
Qed.

(** C2. In every configuration 0..255 each edge index that [triTable] lists
    before the [-1] has its bit set in [edgeTable]; [marching_cubes] assigns
    an interpolated point to exactly the flagged slots, and its assembly loop
    reads assigned slots only (and stops inside the row). *)
Theorem triangle_edges_flagged (f : field) (start end_ : Point3D) :
  let config := cube_config start end_ f in
  let eps := edge_points (edge_entry config) (cube_vertices start end_)
                         (map (eval f) (cube_vertices start end_)) in
  Forall (fun c => Forall (fun e => (0 <= e < 12)%Z
                                    /\ Z.testbit (edge_entry c) e = true)
                          (before_sentinel (tri_row c)))
         (map Z.of_nat (seq 0 256))
  /\ (0 <= config < 256)%Z
  /\ Forall (fun k => (exists p, nth_error eps k = Some (Some p))
                      <-> Z.testbit (edge_entry config) (Z.of_nat k) = true)
            (seq 0 12)
  /\ assemble_checked (tri_row config) eps = Some (assemble (tri_row config) eps)
  /\ marching_cubes start end_ f
     = (if (edge_entry config =? 0)%Z then [] else assemble (tri_row config) eps).
Proof.
  intros config eps.
  assert (Hc : (0 <= config < 256)%Z) by apply cube_config_range.
  split; [| split; [| split; [| split]]].
  - apply Forall_forall. intros c Hin.
    apply in_map_iff in Hin. destruct Hin as (n & <- & Hn).
    apply in_seq in Hn.
    rewrite <- tri_reads_before_sentinel by lia.
    apply tri_reads_flagged. lia.
  - exact Hc.
  - apply Forall_forall. intros k Hk. apply in_seq in Hk.
    apply edge_points_assigned. lia.
  - apply assemble_checked_ok.
    + apply triTable_rows, Hc.
    + apply reads_assigned, tri_reads_flagged, Hc.
  - reflexivity.
Qed.

(** ** The probe *)

Section Probe.

Variable RAND_MAX : Z.


End Probe.








Section ProbeSpec.

Variable RAND_MAX : Z.



End ProbeSpec.

(** ** The recursion of [surface_to_triangles] *)

Lemma is_leaf_true (start end_ : Point3D) (precision : Q) :
  is_leaf start end_ precision = true <->
  (x end_ - x start < precision \/ y end_ - y start < precision
   \/ z end_ - z start < precision).
Proof.
  unfold is_leaf. rewrite !orb_true_iff, !Qltb_true. tauto.
Qed.


Section Recursion.

Variable RAND_MAX : Z.

Lemma surface_to_triangles_leaf fuel f start end_ precision rt :
  is_leaf start end_ precision = true ->
  surface_to_triangles RAND_MAX (S fuel) f start end_ precision rt
  = Some (marching_cubes start end_ f).
Proof. intros H. cbn [surface_to_triangles]. rewrite H. reflexivity. Qed.


Lemma surface_to_triangles_split fuel f start end_ precision rt :
  is_leaf start end_ precision = false ->
  cube_contains_surface RAND_MAX f start end_ (rt []) = true ->
  surface_to_triangles RAND_MAX (S fuel) f start end_ precision rt
  = match join (tasks RAND_MAX fuel f precision rt (octants start end_) 0) with
    | None => None
    | Some sub_results => Some (concat sub_results)
    end.
Proof.
  intros H Hp. cbn [surface_to_triangles]. rewrite H, Hp. reflexivity.
Qed.

Lemma join_Some {A : Type} (slots : list (option A)) (rs : list A) :
  join slots = Some rs <-> slots = map Some rs.
Proof.
  revert rs. induction slots as [| [r |] slots IH]; intros rs; simpl.
  - split.
    + intros H. injection H as <-. reflexivity.
    + destruct rs; [reflexivity | discriminate].
  - destruct (join slots) as [rs' |] eqn:E.
    + split.
      * intros H. injection H as <-. simpl. f_equal. apply IH. reflexivity.
      * destruct rs as [| r0 rs0]; [discriminate |]. simpl. intros H.
        injection H as -> H. apply IH in H. congruence.
    + split; [discriminate |].
      destruct rs as [| r0 rs0]; [discriminate |]. simpl. intros H.
      injection H as _ H. apply IH in H. discriminate.
  - split; [discriminate |]. destruct rs; discriminate.
Qed.

End Recursion.

(** ** Octants *)


(** ** Corners of one sign *)

Lemma cube_config_nonneg (f : field) (start end_ : Point3D) :
  Forall (fun p => 0 <= eval f p) (cube_vertices start end_) ->
  cube_config start end_ f = 0%Z.
Proof.
  intros H. unfold cube_config.
  generalize 0%Z at 2 3. generalize 0%Z.
  induction H as [| p l Hp _ IH]; intros i c; simpl.
  - reflexivity.
  - apply Qltb_false in Hp. rewrite Hp. apply IH.
Qed.

Lemma cube_config_neg (f : field) (start end_ : Point3D) :
  Forall (fun p => eval f p < 0) (cube_vertices start end_) ->
  cube_config start end_ f = 255%Z.
Proof.
  intros H. unfold cube_config, cube_vertices in *.
  repeat match goal with
         | H0 : Forall _ (_ :: _) |- _ =>
             let Hp := fresh "Hp" in
             inversion H0 as [| ? ? Hp ?]; subst; clear H0;
             apply Qltb_true in Hp
         end.
  cbn [map config_of].
  repeat match goal with
         | Hp : Qltb _ _ = true |- _ => rewrite Hp; clear Hp
         end.
  reflexivity.
Qed.

Lemma marching_cubes_config (start end_ : Point3D) (f : field) :
  edge_entry (cube_config start end_ f) = 0%Z ->
  marching_cubes start end_ f = [].
Proof.
  intros H. unfold marching_cubes. cbv zeta.
  change (config_of (map (eval f) (cube_vertices start end_)) 0 0)
    with (cube_config start end_ f).
  rewrite H. reflexivity.
Qed.

Section Driver.

Variable RAND_MAX : Z.


(** C6. On a box that is not a leaf and whose probe reports true,
    [surface_to_triangles] runs on the 8 octants around the midpoint, slot 0
    on (start, mid) up to slot 7 on (mid, end), and returns the results of
    the slots concatenated in the order 0..7. *)
Theorem subdivision_concatenates_in_order (f : field) (start end_ : Point3D)
    (precision : Q) (rt : rand_tree) (fuel : nat) :
  is_leaf start end_ precision = false ->
  cube_contains_surface RAND_MAX f start end_ (rt []) = true ->
  let mid := midpoint start end_ in
  let sub (i : nat) (s e : Point3D) :=
    surface_to_triangles RAND_MAX fuel f s e precision (subtree rt i) in
  let slots :=
    [ sub 0%nat start mid;
      sub 1%nat (mkPoint3D (x mid) (y start) (z start))
                (mkPoint3D (x end_) (y mid) (z mid));
      sub 2%nat (mkPoint3D (x start) (y mid) (z start))
                (mkPoint3D (x mid) (y end_) (z mid));
      sub 3%nat (mkPoint3D (x mid) (y mid) (z start))
                (mkPoint3D (x end_) (y end_) (z mid));
      sub 4%nat (mkPoint3D (x start) (y start) (z mid))
                (mkPoint3D (x mid) (y mid) (z end_));
      sub 5%nat (mkPoint3D (x mid) (y start) (z mid))
                (mkPoint3D (x end_) (y mid) (z end_));
      sub 6%nat (mkPoint3D (x start) (y mid) (z mid))
                (mkPoint3D (x mid) (y end_) (z end_));
      sub 7%nat mid end_ ] in
  (forall r0 r1 r2 r3 r4 r5 r6 r7 : list Triangle,
      slots = [Some r0; Some r1; Some r2; Some r3;
               Some r4; Some r5; Some r6; Some r7] ->
      surface_to_triangles RAND_MAX (S fuel) f start end_ precision rt
      = Some (r0 ++ r1 ++ r2 ++ r3 ++ r4 ++ r5 ++ r6 ++ r7))
  /\ (forall sub_results : list (list Triangle),
        slots = map Some sub_results ->
        surface_to_triangles RAND_MAX (S fuel) f start end_ precision rt
        = Some (concat sub_results))
  /\ (In None slots ->
      surface_to_triangles RAND_MAX (S fuel) f start end_ precision rt = None).
Proof.
  intros L C mid sub slots.
  assert (E : surface_to_triangles RAND_MAX (S fuel) f start end_ precision rt
              = match join slots with
                | None => None
                | Some sub_results => Some (concat sub_results)
                end).
  { rewrite surface_to_triangles_split by assumption. reflexivity. }
  assert (Hlist : forall sub_results : list (list Triangle),
             slots = map Some sub_results ->
             surface_to_triangles RAND_MAX (S fuel) f start end_ precision rt
             = Some (concat sub_results)).
  { intros rs Hrs. rewrite E. apply join_Some in Hrs. rewrite Hrs.
    reflexivity. }
  split; [| split].
  - intros r0 r1 r2 r3 r4 r5 r6 r7 Hs.
    rewrite (Hlist [r0; r1; r2; r3; r4; r5; r6; r7] Hs).
    simpl. rewrite app_nil_r. reflexivity.
  - exact Hlist.
  - intros Hin. rewrite E.
    destruct (join slots) as [rs |] eqn:J; [| reflexivity].
    apply join_Some in J. rewrite J in Hin.
    apply in_map_iff in Hin. destruct Hin as (r & Hr & _). discriminate.
Qed.

(** C10. With a positive precision, a box with [start >= end_] on some axis
    passes the leaf test: [surface_to_triangles] returns the extraction of
    [marching_cubes] on that box, at depth 1 and whatever the rand values,
    so without a probe and without a recursive call. *)
Theorem degenerate_box_extracted_directly (f : field) (start end_ : Point3D)
    (precision : Q) :
  0 < precision ->
  (x end_ <= x start \/ y end_ <= y start \/ z end_ <= z start) ->
  is_leaf start end_ precision = true
  /\ forall (rt : rand_tree) (fuel : nat),
       surface_to_triangles RAND_MAX (S fuel) f start end_ precision rt
       = Some (marching_cubes start end_ f).
Proof.
  intros Hp Hdeg.
  assert (L : is_leaf start end_ precision = true).
  { apply is_leaf_true. destruct Hdeg as [H | [H | H]];
      [left | right; left | right; right]; lra. }
  split; [exact L |].
  intros rt fuel. apply surface_to_triangles_leaf, L.
Qed.

End Driver.

(** ** Concrete runs *)

Lemma subdivision_concatenates_in_order_witness :
  is_leaf unit_lo unit_hi 1.5 = false
  /\ cube_contains_surface glibc_RAND_MAX plane_x unit_lo unit_hi
       (tree_spread []) = true
  /\ surface_to_triangles glibc_RAND_MAX 2 plane_x unit_lo unit_hi 1.5
       tree_spread
     = Some (concat (map (fun o => marching_cubes (fst o) (snd o) plane_x)
                         (octants unit_lo unit_hi))).
Proof.
  assert (L : is_leaf unit_lo unit_hi 1.5 = false) by reflexivity.
  assert (C : cube_contains_surface glibc_RAND_MAX plane_x unit_lo unit_hi
                (tree_spread []) = true) by (vm_compute; reflexivity).
  split; [exact L |]. split; [exact C |].
  apply (subdivision_concatenates_in_order glibc_RAND_MAX plane_x unit_lo
           unit_hi 1.5 tree_spread 1 L C).
  reflexivity.
Defined.

Lemma degenerate_box_extracted_directly_witness :
  0 < 0.1
  /\ (x (mkPoint3D 0 1 1) <= x (mkPoint3D 0 0 0)
      \/ y (mkPoint3D 0 1 1) <= y (mkPoint3D 0 0 0)
      \/ z (mkPoint3D 0 1 1) <= z (mkPoint3D 0 0 0))
  /\ surface_to_triangles glibc_RAND_MAX 1 plane_x (mkPoint3D 0 0 0)
       (mkPoint3D 0 1 1) 0.1 tree_zero
     = Some (marching_cubes (mkPoint3D 0 0 0) (mkPoint3D 0 1 1) plane_x).
Proof.
  assert (Hp : 0 < 0.1) by reflexivity.
  assert (Hdeg : x (mkPoint3D 0 1 1) <= x (mkPoint3D 0 0 0)
                 \/ y (mkPoint3D 0 1 1) <= y (mkPoint3D 0 0 0)
                 \/ z (mkPoint3D 0 1 1) <= z (mkPoint3D 0 0 0))
    by (left; simpl; lra).
  split; [exact Hp |]. split; [exact Hdeg |].
  apply (degenerate_box_extracted_directly glibc_RAND_MAX plane_x
           (mkPoint3D 0 0 0) (mkPoint3D 0 1 1) 0.1 Hp Hdeg).
Defined.

(** ** The written mesh *)

Lemma vertex_lines_length (triangles : list Triangle) :
  length (vertex_lines triangles) = (3 * length triangles)%nat.
Proof.
  induction triangles as [| t rest IH]; simpl; [reflexivity |].
  rewrite IH. lia.
Qed.

Lemma face_lines_nth (n : nat) :
  forall (i : Z) (k : nat),
    (k < n)%nat ->
    nth_error (face_lines n i) k
    = Some (F ((i + Z.of_nat k) * 6 + 1) ((i + Z.of_nat k) * 6 + 1 + 1)
              ((i + Z.of_nat k) * 6 + 1 + 2))%Z.
Proof.
  induction n as [| n IH]; intros i k Hk; [lia |].
  destruct k as [| k]; cbn [face_lines nth_error].
  - replace (i + Z.of_nat 0)%Z with i by lia. reflexivity.
  - rewrite IH by lia.
    replace (i + 1 + Z.of_nat k)%Z with (i + Z.of_nat (S k))%Z by lia.
    reflexivity.
Qed.

(** C9, as the code has it.  [draw_surface] writes three vertex lines per
    triangle and one face line per triangle, but face [i] names the vertex
    indices 6i+1, 6i+2, 6i+3, not 3i+1, 3i+2, 3i+3: on the two triangles
    that [marching_cubes] extracts from the plane x = 0 in the box
    (-1,-1,-1)..(1,1,1), the file holds 6 vertex lines and the faces
    [f 1 2 3] and [f 7 8 9]. *)
Theorem draw_surface_face_indices :
  (forall triangles : list Triangle,
      write_mesh triangles
      = [ Text "# Marching Cubes Output - Double-sided";
          TriangleCount (length triangles); Text "" ]
        ++ vertex_lines triangles ++ face_lines (length triangles) 0
      /\ length (vertex_lines triangles) = (3 * length triangles)%nat
      /\ length (face_lines (length triangles) 0) = length triangles
      /\ forall i : nat,
           (i < length triangles)%nat ->
           nth_error (face_lines (length triangles) 0) i
           = Some (F (6 * Z.of_nat i + 1) (6 * Z.of_nat i + 2)
                     (6 * Z.of_nat i + 3)))
  /\ (draw_surface glibc_RAND_MAX 1 plane_x true (-1) (-1) (-1) 1 1 1 2.5
        tree_zero
      = Some (File ([ Text "# Marching Cubes Output - Double-sided";
                      TriangleCount 2; Text "" ]
                    ++ vertex_lines (marching_cubes unit_lo unit_hi plane_x)
                    ++ [F 1 2 3; F 7 8 9]))
      /\ length (vertex_lines (marching_cubes unit_lo unit_hi plane_x))
         = 6%nat).
Proof.
  split.
  - intros triangles. split; [reflexivity |].
    split; [apply vertex_lines_length |]. split.
    + generalize 0%Z. induction (length triangles) as [| n IH]; intros i;
        simpl; [reflexivity | rewrite IH; reflexivity].
    + intros i Hi. rewrite face_lines_nth by exact Hi.
      f_equal. f_equal; lia.
  - split; vm_compute; reflexivity.
Qed.

(** * The rest of the code *)

(** ** [Point3D::operator==] *)

(** Equality of points up to 1e-9 on every coordinate. *)
Definition Point3D_eq (a b : Point3D) : bool :=
  Qltb (Qabs (x a - x b)) 1e-9
  && Qltb (Qabs (y a - y b)) 1e-9
  && Qltb (Qabs (z a - z b)) 1e-9.

(** ** [class Face] *)

(** A polygon: the vector of its vertices, empty when constructed. *)
Record Face : Type := mkFace { vertices : list Point3D }.

Definition Face_new : Face := mkFace [].

(** [addVertex]: [vertices.push_back(vertex)]. *)
Definition addVertex (face : Face) (vertex : Point3D) : Face :=
  mkFace (vertices face ++ [vertex]).

(** The loop [for (size_t i = ...; i < vertices.size() - 1; i++)] of
    [triangulate] from index [i] on; [fuel] bounds the iterations, and the
    length of the vector is enough of it (lemma [fan_from_seq]). *)
Fixpoint fan_from (fuel : nat) (i : nat) (vs : list Point3D) : list Triangle :=
  match fuel with
  | O => []
  | S fuel' =>
      if (i <? length vs - 1)%nat
      then mkTriangle (nth 0 vs Point3D_default) (nth i vs Point3D_default)
                      (nth (i + 1) vs Point3D_default)
             :: fan_from fuel' (S i) vs
      else []
  end.

(** [triangulate]: nothing below 3 vertices, else the fan from the first
    vertex. *)
Definition triangulate (face : Face) : list Triangle :=
  if (length (vertices face) <? 3)%nat then []
  else fan_from (length (vertices face)) 1 (vertices face).

(** ** Further vocabulary *)

(** The three corners of a triangle satisfy [P]. *)
Definition corners (P : Point3D -> Prop) (t : Triangle) : Prop :=
  P (p1 t) /\ P (p2 t) /\ P (p3 t).

(** The triangle of the fan at index [j]. *)
Definition fan_triangle (vs : list Point3D) (j : nat) : Triangle :=
  mkTriangle (nth 0 vs Point3D_default) (nth j vs Point3D_default)
             (nth (j + 1) vs Point3D_default).

(** The sign bits of the eight corner values, corner 0 first. *)
Definition corner_signs (start end_ : Point3D) (f : field) : list bool :=
  map (fun p => Qltb (eval f p) 0) (cube_vertices start end_).

(** The check made of every configuration [c]: an edge is flagged in
    [edgeTable[c]] exactly when the sign bits of its two corners, as the
    table [edges] names them, differ in [c]; the entry is 0 exactly for
    [c = 0] and [c = 255]; and every other row starts with a triangle. *)
Definition crossing_ok (c : Z) : bool :=
  forallb (fun k =>
             Bool.eqb (Z.testbit (edge_entry c) (Z.of_nat k))
                      (xorb (Z.testbit c (Z.of_nat (fst (nth k edges (0, 0)%nat))))
                            (Z.testbit c (Z.of_nat (snd (nth k edges (0, 0)%nat))))))
          (seq 0 12)
  && Bool.eqb (edge_entry c =? 0)%Z ((c =? 0)%Z || (c =? 255)%Z)
  && ((edge_entry c =? 0)%Z
      || match tri_row c with
         | a :: _ :: _ :: _ => negb (a =? -1)%Z
         | _ => false
         end).



(** * Further properties *)

(** ** [Point3D::operator==] *)

Lemma Qabs_diff_sym (a b : Q) : Qabs (a - b) == Qabs (b - a).
Proof.
  rewrite <- (Qabs_opp (a - b)).
  apply Qabs_wd. ring.
Qed.

Lemma Qltb_proper (a a' b : Q) : a == a' -> Qltb a b = Qltb a' b.
Proof.
  intros E. destruct (Qltb a' b) eqn:H.
  - apply Qltb_true. apply Qltb_true in H. rewrite E. exact H.
  - apply Qltb_false. apply Qltb_false in H. rewrite E. exact H.
Qed.

(** X1. [operator==] holds of a point and itself and does not depend on the
    order of its operands, but it is not transitive: each of two points can
    equal a third without equalling each other. *)
Theorem Point3D_eq_not_an_equivalence :
  (forall a : Point3D, Point3D_eq a a = true)
  /\ (forall a b : Point3D, Point3D_eq a b = Point3D_eq b a)
  /\ (forall a b : Point3D,
        Point3D_eq a b = true <->
        Qabs (x a - x b) < 1e-9 /\ Qabs (y a - y b) < 1e-9
        /\ Qabs (z a - z b) < 1e-9)
  /\ (exists a b c : Point3D,
        Point3D_eq a b = true /\ Point3D_eq b c = true
        /\ Point3D_eq a c = false).
Proof.
  split; [| split; [| split]].
  - intros a. unfold Point3D_eq.
    assert (H : forall q : Q, Qltb (Qabs (q - q)) 1e-9 = true).
    { intros q. apply Qltb_true.
      assert (E : q - q == 0) by ring.
      rewrite E. reflexivity. }
    rewrite !H. reflexivity.
  - intros a b. unfold Point3D_eq.
    rewrite (Qltb_proper _ _ _ (Qabs_diff_sym (x a) (x b))),
      (Qltb_proper _ _ _ (Qabs_diff_sym (y a) (y b))),
      (Qltb_proper _ _ _ (Qabs_diff_sym (z a) (z b))).
    reflexivity.
  - intros a b. unfold Point3D_eq.
    rewrite !andb_true_iff, !Qltb_true. tauto.
  - exists (mkPoint3D 0 0 0), (mkPoint3D 6e-10 0 0), (mkPoint3D 12e-10 0 0).
    repeat split; vm_compute; reflexivity.
Qed.

(** ** [Face::triangulate] *)

Lemma fan_from_seq (vs : list Point3D) :
  forall (fuel i : nat),
    (length vs - 1 - i <= fuel)%nat ->
    fan_from fuel i vs = map (fan_triangle vs) (seq i (length vs - 1 - i)).
Proof.
  induction fuel as [| fuel IH]; intros i H.
  - replace (length vs - 1 - i)%nat with 0%nat by lia. reflexivity.
  - cbn [fan_from]. destruct (i <? length vs - 1)%nat eqn:E.
    + apply Nat.ltb_lt in E.
      replace (length vs - 1 - i)%nat with (S (length vs - 1 - S i)) by lia.
      cbn [seq map]. rewrite IH by lia. reflexivity.
    + apply Nat.ltb_ge in E.
      replace (length vs - 1 - i)%nat with 0%nat by lia. reflexivity.
Qed.

Lemma triangulate_seq (face : Face) :
  triangulate face
  = map (fan_triangle (vertices face)) (seq 1 (length (vertices face) - 2)).
Proof.
  unfold triangulate. destruct (length (vertices face) <? 3)%nat eqn:E.
  - apply Nat.ltb_lt in E.
    replace (length (vertices face) - 2)%nat with 0%nat by lia. reflexivity.
  - apply Nat.ltb_ge in E. rewrite fan_from_seq by lia.
    replace (length (vertices face) - 1 - 1)%nat
      with (length (vertices face) - 2)%nat by lia.
    reflexivity.
Qed.

(** X2. [triangulate] returns two triangles fewer than the face has vertices
    (none for a face of fewer than 3 vertices); its triangle number [i] joins
    the first vertex to the vertices [i+1] and [i+2]; and every corner it
    returns is a vertex of the face. *)
Theorem triangulate_fan (face : Face) :
  length (triangulate face) = (length (vertices face) - 2)%nat
  /\ (forall i : nat,
        (i < length (vertices face) - 2)%nat ->
        nth_error (triangulate face) i
        = Some (mkTriangle (nth 0 (vertices face) Point3D_default)
                           (nth (i + 1) (vertices face) Point3D_default)
                           (nth (i + 2) (vertices face) Point3D_default)))
  /\ Forall (corners (fun p => In p (vertices face))) (triangulate face).
Proof.
  rewrite triangulate_seq. split; [| split].
  - rewrite length_map, length_seq. reflexivity.
  - intros i Hi.
    rewrite nth_error_map, nth_error_seq.
    destruct (Nat.ltb_spec i (length (vertices face) - 2)); [| lia].
    cbn [option_map]. unfold fan_triangle.
    replace (1 + i)%nat with (i + 1)%nat by lia.
    replace (i + 1 + 1)%nat with (i + 2)%nat by lia.
    reflexivity.
  - apply Forall_forall. intros t Ht.
    apply in_map_iff in Ht. destruct Ht as (j & <- & Hj).
    apply in_seq in Hj. unfold corners, fan_triangle. cbn [p1 p2 p3].
    repeat split; apply nth_In; lia.
Qed.

Lemma nth_last_index {A : Type} (l : list A) (d : A) :
  nth (length l - 1) l d = last l d.
Proof.
  induction l as [| a l IH]; [reflexivity |].
  destruct l as [| b l]; [reflexivity |].
  change (last (a :: b :: l) d) with (last (b :: l) d).
  rewrite <- IH.
  replace (length (a :: b :: l) - 1)%nat with (S (length (b :: l) - 1))
    by (simpl; lia).
  reflexivity.
Qed.

(** X3. Adding a vertex to a face of at least 2 vertices adds one triangle to
    its triangulation, after the others: the one that joins the first vertex,
    the former last vertex and the new one. *)
Theorem triangulate_addVertex (face : Face) (vertex : Point3D) :
  (2 <= length (vertices face))%nat ->
  triangulate (addVertex face vertex)
  = triangulate face
    ++ [mkTriangle (nth 0 (vertices face) Point3D_default)
                   (last (vertices face) Point3D_default) vertex].
Proof.
  intros H. rewrite !triangulate_seq. unfold addVertex. cbn [vertices].
  rewrite length_app. cbn [length].
  replace (length (vertices face) + 1 - 2)%nat
    with (length (vertices face) - 2 + 1)%nat by lia.
  rewrite seq_app, map_app. cbn [seq map]. f_equal.
  - apply map_ext_in. intros j Hj. apply in_seq in Hj.
    unfold fan_triangle. rewrite !app_nth1 by lia. reflexivity.
  - unfold fan_triangle.
    replace (1 + (length (vertices face) - 2))%nat
      with (length (vertices face) - 1)%nat by lia.
    rewrite !app_nth1 by lia.
    replace (length (vertices face) - 1 + 1)%nat
      with (length (vertices face)) by lia.
    rewrite app_nth2 by lia. rewrite Nat.sub_diag. cbn [nth].
    rewrite nth_last_index. reflexivity.
Qed.

Lemma triangulate_addVertex_witness :
  (2 <= length (vertices (mkFace [unit_lo; unit_hi])))%nat
  /\ triangulate (addVertex (mkFace [unit_lo; unit_hi]) sphere_hi)
     = triangulate (mkFace [unit_lo; unit_hi])
       ++ [mkTriangle unit_lo unit_hi sphere_hi].
Proof.
  assert (H : (2 <= length (vertices (mkFace [unit_lo; unit_hi])))%nat)
    by (simpl; lia).
  split; [exact H |].
  apply (triangulate_addVertex (mkFace [unit_lo; unit_hi]) sphere_hi H).
Defined.

(** ** [marching_cubes]: the configuration *)

(** Bit [i] of the configuration index, for a corner [i]. *)
Lemma corner_bit (start end_ : Point3D) (f : field) (i : nat) :
  (i < 8)%nat ->
  Z.testbit (cube_config start end_ f) (Z.of_nat i)
  = Qltb (eval f (nth i (cube_vertices start end_) Point3D_default)) 0.
Proof.
  revert i. unfold cube_config, cube_vertices. cbn [map config_of].
  repeat match goal with
         | |- context [Qltb ?a ?b] =>
             let E := fresh "E" in destruct (Qltb a b) eqn:E
         end;
    intros i Hi;
    do 8 (destruct i as [| i]; [cbn [nth]; symmetry; assumption |]); lia.
Qed.

(** X6. Bit [i] of the configuration index is set exactly when the field is
    negative at corner [i], and the index has no other bit: it lies in
    0..255. *)
Theorem cube_config_bits (start end_ : Point3D) (f : field) :
  (0 <= cube_config start end_ f < 256)%Z
  /\ forall i : nat,
       Z.testbit (cube_config start end_ f) (Z.of_nat i)
       = nth i (corner_signs start end_ f) false.
Proof.
  pose proof (cube_config_range start end_ f) as Hr.
  split; [exact Hr |].
  intros i. destruct (Nat.lt_ge_cases i 8) as [Hi | Hi].
  - rewrite (corner_bit start end_ f i Hi).
    unfold corner_signs, cube_vertices. cbn [map].
    do 8 (destruct i as [| i]; [reflexivity |]). lia.
  - rewrite nth_overflow
      by (unfold corner_signs, cube_vertices; cbn [map length]; lia).
    destruct (Z.eq_dec (cube_config start end_ f) 0) as [E | E].
    + rewrite E. apply Z.bits_0.
    + apply Z.bits_above_log2; [lia |].
      apply Z.lt_le_trans with 8%Z; [| lia].
      apply Z.log2_lt_pow2; [lia |]. change (2 ^ 8)%Z with 256%Z. lia.
Qed.

(** ** [marching_cubes]: the tables against the cube *)

Lemma crossing_checked :
  forallb crossing_ok (map Z.of_nat (seq 0 256)) = true.
Proof. vm_compute. reflexivity. Qed.

Lemma crossing_ok_all (c : Z) : (0 <= c < 256)%Z -> crossing_ok c = true.
Proof.
  intros Hc. pose proof crossing_checked as H.
  rewrite forallb_forall in H. apply H.
  apply in_map_iff. exists (Z.to_nat c). split; [lia |].
  apply in_seq. lia.
Qed.

Lemma flagged_corners_differ (c : Z) (k : nat) :
  (0 <= c < 256)%Z -> (k < 12)%nat ->
  Z.testbit (edge_entry c) (Z.of_nat k)
  = xorb (Z.testbit c (Z.of_nat (fst (nth k edges (0, 0)%nat))))
         (Z.testbit c (Z.of_nat (snd (nth k edges (0, 0)%nat)))).
Proof.
  intros Hc Hk. pose proof (crossing_ok_all c Hc) as H.
  unfold crossing_ok in H. rewrite !andb_true_iff in H.
  destruct H as ((H & _) & _). rewrite forallb_forall in H.
  apply Bool.eqb_prop, H, in_seq. lia.
Qed.

Lemma edge_entry_zero (c : Z) :
  (0 <= c < 256)%Z -> (edge_entry c = 0%Z <-> c = 0%Z \/ c = 255%Z).
Proof.
  intros Hc. pose proof (crossing_ok_all c Hc) as H.
  unfold crossing_ok in H. rewrite !andb_true_iff in H.
  destruct H as ((_ & H) & _). apply Bool.eqb_prop in H.
  rewrite <- Z.eqb_eq, H, orb_true_iff, !Z.eqb_eq. reflexivity.
Qed.

Lemma assemble_nonempty (c : Z) (eps : list (option Point3D)) :
  (0 <= c < 256)%Z -> edge_entry c <> 0%Z -> assemble (tri_row c) eps <> [].
Proof.
  intros Hc Hne. pose proof (crossing_ok_all c Hc) as H.
  unfold crossing_ok in H. rewrite !andb_true_iff in H.
  destruct H as (_ & H). apply Z.eqb_neq in Hne. rewrite Hne in H.
  cbn [orb] in H.
  destruct (tri_row c) as [| a [| b [| d rest]]]; try discriminate.
  cbn [assemble]. apply negb_true_iff in H. rewrite H. discriminate.
Qed.

(** The slot [k] of [edge_points] is the guarded interpolation along the
    edge [k] of the table [edges]. *)
Lemma edge_points_slot (et : Z) (vs : list Point3D) (vals : list Q) (k : nat) :
  (k < 12)%nat ->
  nth_error (edge_points et vs vals) k
  = Some (crossing et vs vals (2 ^ Z.of_nat k)
            (fst (nth k edges (0, 0)%nat)) (snd (nth k edges (0, 0)%nat))).
Proof.
  intros Hk. unfold edge_points.
  do 12 (destruct k as [| k]; [reflexivity |]). lia.
Qed.

Lemma edges_corners (k : nat) :
  (k < 12)%nat ->
  (fst (nth k edges (0, 0)%nat) < 8)%nat
  /\ (snd (nth k edges (0, 0)%nat) < 8)%nat.
Proof.
  intros Hk. do 12 (destruct k as [| k]; [simpl; lia |]). lia.
Qed.

(** ** [marching_cubes]: the triangles *)

Lemma assemble_length (eps : list (option Point3D)) (row : list Z) :
  (3 * length (assemble row eps) <= length row)%nat.
Proof.
  induction row as [| a | a b | a b c rest IH] using list_ind3;
    cbn [assemble length]; try lia.
  destruct (a =? -1)%Z; cbn [length]; lia.
Qed.

Lemma marching_cubes_unfold (start end_ : Point3D) (f : field) :
  marching_cubes start end_ f
  = if (edge_entry (cube_config start end_ f) =? 0)%Z then []
    else assemble (tri_row (cube_config start end_ f))
           (edge_points (edge_entry (cube_config start end_ f))
              (cube_vertices start end_)
              (map (eval f) (cube_vertices start end_))).
Proof. reflexivity. Qed.

(** X8. [marching_cubes] returns no triangle exactly when the field has one
    sign class at the eight corners: [>= 0] at all of them, or [< 0] at all
    of them. *)
Theorem marching_cubes_empty_iff (start end_ : Point3D) (f : field) :
  marching_cubes start end_ f = [] <->
  (Forall (fun p => 0 <= eval f p) (cube_vertices start end_)
   \/ Forall (fun p => eval f p < 0) (cube_vertices start end_)).
Proof.
  pose proof (cube_config_range start end_ f) as Hc.
  split.
  - intros Hempty.
    assert (Hz : edge_entry (cube_config start end_ f) = 0%Z).
    { destruct (Z.eq_dec (edge_entry (cube_config start end_ f)) 0)
        as [E | E]; [exact E |].
      rewrite marching_cubes_unfold in Hempty.
      apply Z.eqb_neq in E. rewrite E in Hempty. apply Z.eqb_neq in E.
      exfalso. exact (assemble_nonempty _ _ Hc E Hempty). }
    apply (edge_entry_zero _ Hc) in Hz.
    assert (Hsign : forall i, (i < 8)%nat ->
              Qltb (eval f (nth i (cube_vertices start end_) Point3D_default)) 0
              = Z.testbit (cube_config start end_ f) (Z.of_nat i)).
    { intros i Hi. symmetry. apply corner_bit, Hi. }
    destruct Hz as [E | E]; rewrite E in Hsign; [left | right];
      apply Forall_forall; intros p Hp;
      destruct (In_nth _ _ Point3D_default Hp) as (i & Hi & <-);
      change (length (cube_vertices start end_)) with 8%nat in Hi;
      specialize (Hsign i Hi).
    + rewrite Z.bits_0 in Hsign. apply Qltb_false, Hsign.
    + apply Qltb_true. rewrite Hsign. clear Hsign.
      do 8 (destruct i as [| i]; [reflexivity |]). lia.
  - intros [H | H]; apply marching_cubes_config.
    + rewrite (cube_config_nonneg f start end_ H). reflexivity.
    + rewrite (cube_config_neg f start end_ H). reflexivity.
Qed.

(** X9. [marching_cubes] returns at most 5 triangles. *)
Theorem marching_cubes_at_most_5 (start end_ : Point3D) (f : field) :
  (length (marching_cubes start end_ f) <= 5)%nat.
Proof.
  rewrite marching_cubes_unfold.
  destruct (edge_entry (cube_config start end_ f) =? 0)%Z;
    [cbn [length]; lia |].
  pose proof (cube_config_range start end_ f) as Hc.
  destruct (triTable_rows _ Hc) as [Hlen _].
  pose proof (assemble_length
                (edge_points (edge_entry (cube_config start end_ f))
                   (cube_vertices start end_)
                   (map (eval f) (cube_vertices start end_)))
                (tri_row (cube_config start end_ f))) as H.
  lia.
Qed.

(** ** The octants *)



(** ** [surface_to_triangles]: further properties *)



Section DriverMore.

Variable RAND_MAX : Z.




End DriverMore.

(** ** Concrete runs of the further properties *)








(** ** [marching_cubes]: the edges that get a point *)

(** X16. [marching_cubes] assigns an interpolated point to the slot of an
    edge exactly when the field is negative at one of the edge's two corners
    and not at the other. *)
Theorem edge_assigned_iff_sign_change (start end_ : Point3D) (f : field) :
  Forall (fun k =>
            (exists p,
                nth_error (edge_points (edge_entry (cube_config start end_ f))
                             (cube_vertices start end_)
                             (map (eval f) (cube_vertices start end_))) k
                = Some (Some p))
            <-> xorb (Qltb (eval f (nth (fst (nth k edges (0, 0)%nat))
                                      (cube_vertices start end_)
                                      Point3D_default)) 0)
                     (Qltb (eval f (nth (snd (nth k edges (0, 0)%nat))
                                      (cube_vertices start end_)
                                      Point3D_default)) 0)
                = true)
         (seq 0 12).
Proof.
  apply Forall_forall. intros k Hk. apply in_seq in Hk.
  assert (Hk' : (k < 12)%nat) by lia.
  rewrite (edge_points_assigned _ _ _ k Hk').
  pose proof (cube_config_range start end_ f) as Hc.
  destruct (edges_corners k Hk') as [Ha Hb].
  rewrite (flagged_corners_differ _ k Hc Hk').
  rewrite !corner_bit by assumption. reflexivity.
Qed.

(** * The pipeline in binary64 arithmetic *)

(** The functions of the pipeline once more, with [double] as it is on the
    machine: an IEEE binary64 number.  Every operation is the correctly
    rounded one of [PrimFloat] and is taken on its own, as in the code that a
    compiler for x86-64 produces (no fused multiply-add).  The comparisons
    are those of IEEE: both [<] and [>=] are false on NaN.  The tables, the
    fan-out of the tasks ([join]), [rand_source] and [rand_tree] are those of
    the first model. *)

Module Binary64.
Import Floats.
Local Open Scope float_scope.

(** ** Data *)

(** [class Point3D] and [class Triangle]. *)
Record Point3D : Type := mkPoint3D { x : float; y : float; z : float }.

Definition Point3D_default : Point3D := mkPoint3D 0 0 0.

Record Triangle : Type := mkTriangle { p1 : Point3D; p2 : Point3D; p3 : Point3D }.

(** The function-pointer parameter [f]. *)
Definition field : Type := float -> float -> float -> float.

Definition eval (f : field) (p : Point3D) : float := f (x p) (y p) (z p).

(** [static_cast<double>] of an [int], and the conversion of the [int]
    [RAND_MAX] in [RAND_MAX / (xmax - xmin)]: exact, an [int] has 32 bits. *)
Definition of_int (r : Z) : float :=
  if Z.ltb r 0 then - of_uint63 (Uint63.of_Z (- r))
  else of_uint63 (Uint63.of_Z r).

(** ** [interpolate_3d] *)

(** The literal [1e-9] denotes the double [0x1.12e0be826d695p-30]. *)
Definition interpolate_3d (p1 p2 : Point3D) (f1 f2 : float) : Point3D :=
  if abs (f2 - f1) <? 0x1.12e0be826d695p-30 then
    mkPoint3D ((x p1 + x p2) / 2) ((y p1 + y p2) / 2) ((z p1 + z p2) / 2)
  else
    let t := (0 - f1) / (f2 - f1) in
    mkPoint3D (x p1 + t * (x p2 - x p1))
              (y p1 + t * (y p2 - y p1))
              (z p1 + t * (z p2 - z p1)).

(** ** [marching_cubes] *)

(** The array [vertices]. *)
Definition cube_vertices (start end_ : Point3D) : list Point3D :=
  [ mkPoint3D (x start) (y start) (z start); mkPoint3D (x end_) (y start) (z start);
    mkPoint3D (x end_) (y end_) (z start);   mkPoint3D (x start) (y end_) (z start);
    mkPoint3D (x start) (y start) (z end_);  mkPoint3D (x end_) (y start) (z end_);
    mkPoint3D (x end_) (y end_) (z end_);    mkPoint3D (x start) (y end_) (z end_) ].

(** The loop that sets bit [i] of [config] when [values[i] < 0]. *)
Fixpoint config_of (values : list float) (i : Z) (config : Z) : Z :=
  match values with
  | [] => config
  | v :: rest =>
      config_of rest (i + 1)%Z
                (if v <? 0 then Z.lor config (Z.shiftl 1 i) else config)
  end.

(** One guarded assignment of [edge_points[k]]; [None] is a slot left at its
    default-constructed value. *)
Definition crossing (et : Z) (vertices : list Point3D) (values : list float)
                    (mask : Z) (a b : nat) : option Point3D :=
  if (Z.land et mask =? 0)%Z then None
  else Some (interpolate_3d (nth a vertices Point3D_default)
                            (nth b vertices Point3D_default)
                            (nth a values 0) (nth b values 0)).

(** The twelve guarded assignments. *)
Definition edge_points (et : Z) (vertices : list Point3D) (values : list float)
  : list (option Point3D) :=
  let c := crossing et vertices values in
  [ c 1%Z 0 1;    c 2%Z 1 2;    c 4%Z 2 3;     c 8%Z 3 0;
    c 16%Z 4 5;   c 32%Z 5 6;   c 64%Z 6 7;    c 128%Z 7 4;
    c 256%Z 0 4;  c 512%Z 1 5;  c 1024%Z 2 6;  c 2048%Z 3 7 ]%nat.

(** [edge_points[e]]. *)
Definition edge_point (eps : list (option Point3D)) (e : Z) : Point3D :=
  if (e <? 0)%Z then Point3D_default
  else match nth_error eps (Z.to_nat e) with
       | Some (Some p) => p
       | _ => Point3D_default
       end.

(** The loop over the row [triTable[config]], three entries at a time, up to
    the first [-1]. *)
Fixpoint assemble (row : list Z) (eps : list (option Point3D)) : list Triangle :=
  match row with
  | a :: b :: c :: rest =>
      if (a =? -1)%Z then []
      else mkTriangle (edge_point eps a) (edge_point eps b) (edge_point eps c)
             :: assemble rest eps
  | _ => []
  end.

Definition cube_config (start end_ : Point3D) (f : field) : Z :=
  config_of (map (eval f) (cube_vertices start end_)) 0 0.

Definition marching_cubes (start end_ : Point3D) (f : field) : list Triangle :=
  let vertices := cube_vertices start end_ in
  let values := map (eval f) vertices in
  let config := config_of values 0 0 in
  if (edge_entry config =? 0)%Z then []
  else assemble (tri_row config)
                (edge_points (edge_entry config) vertices values).

Section Polygonize64.

Variable RAND_MAX : Z.

(** ** [get_random_point_3d] *)

(** Three calls of [rand()], in the order x, y, z; each coordinate is
    [min + r / (RAND_MAX / (max - min))], three rounded operations. *)
Definition get_random_point_3d (src : rand_source)
    (xmin ymin zmin xmax ymax zmax : float) (k : N) : Point3D * N :=
  let '(r, k) := rand src k in
  let x := xmin + of_int r / (of_int RAND_MAX / (xmax - xmin)) in
  let '(r, k) := rand src k in
  let y := ymin + of_int r / (of_int RAND_MAX / (ymax - ymin)) in
  let '(r, k) := rand src k in
  let z := zmin + of_int r / (of_int RAND_MAX / (zmax - zmin)) in
  (mkPoint3D x y z, k).

(** ** [cube_contains_surface] *)

(** The first loop: [n] samples, pushed in order. *)
Fixpoint random_samples (n : nat) (src : rand_source) (start end_ : Point3D)
    (k : N) : list Point3D :=
  match n with
  | O => []
  | S n' =>
      let '(p, k) := get_random_point_3d src (x start) (y start) (z start)
                                             (x end_) (y end_) (z end_) k in
      p :: random_samples n' src start end_ k
  end.

(** One iteration's update of the two flags: [value >= 0], else
    [value < 0]; a NaN sets neither. *)
Definition observe (value : float) (has_positive has_negative : bool) : bool * bool :=
  if 0 <=? value then (true, has_negative)
  else if value <? 0 then (has_positive, true)
  else (has_positive, has_negative).

(** The second loop, with the number of samples at which the field was
    evaluated. *)
Fixpoint scan_samples (f : field) (samples : list Point3D)
    (has_positive has_negative : bool) (evaluated : nat) : bool * nat :=
  match samples with
  | [] => (false, evaluated)
  | p :: rest =>
      let value := eval f p in
      let '(hp, hn) := observe value has_positive has_negative in
      if hp && hn then (true, S evaluated)
      else scan_samples f rest hp hn (S evaluated)
  end.

Definition cube_contains_surface (f : field) (start end_ : Point3D)
    (src : rand_source) : bool :=
  let random_samples := random_samples SAMPLES src start end_ 0%N in
  fst (scan_samples f random_samples false false 0).

(** ** [surface_to_triangles] *)

(** The leaf test. *)
Definition is_leaf (start end_ : Point3D) (precision : float) : bool :=
  (x end_ - x start <? precision)
  || (y end_ - y start <? precision)
  || (z end_ - z start <? precision).

(** The recursion, with the depth counted as in the first model: [None]
    means that [fuel] nested calls did not suffice. *)
Fixpoint surface_to_triangles (fuel : nat) (f : field) (start end_ : Point3D)
    (precision : float) (rt : rand_tree) : option (list Triangle) :=
  match fuel with
  | O => None
  | S fuel' =>
      if is_leaf start end_ precision then Some (marching_cubes start end_ f)
      else if negb (cube_contains_surface f start end_ (rt [])) then Some []
      else
        let mid_x := (x start + x end_) / 2 in
        let mid_y := (y start + y end_) / 2 in
        let mid_z := (z start + z end_) / 2 in
        let mid := mkPoint3D mid_x mid_y mid_z in
        let task (i : nat) (s e : Point3D) :=
          surface_to_triangles fuel' f s e precision (subtree rt i) in
        match join
          [ task 0%nat start mid;
            task 1%nat (mkPoint3D mid_x (y start) (z start)) (mkPoint3D (x end_) mid_y mid_z);
            task 2%nat (mkPoint3D (x start) mid_y (z start)) (mkPoint3D mid_x (y end_) mid_z);
            task 3%nat (mkPoint3D mid_x mid_y (z start)) (mkPoint3D (x end_) (y end_) mid_z);
            task 4%nat (mkPoint3D (x start) (y start) mid_z) (mkPoint3D mid_x mid_y (z end_));
            task 5%nat (mkPoint3D mid_x (y start) mid_z) (mkPoint3D (x end_) mid_y (z end_));
            task 6%nat (mkPoint3D (x start) mid_y mid_z) (mkPoint3D mid_x (y end_) (z end_));
            task 7%nat mid end_ ]
        with
        | None => None
        | Some sub_results => Some (concat sub_results)
        end
  end.

End Polygonize64.

(** ** The generator behind [rand()] *)

(** The generator is the C library's, not the program's.  Where a run on
    concrete values is needed, the values are those of glibc, the library the
    program is linked against on Linux: an additive feedback generator on 31
    words of 32 bits, [r(i) = r(i-31) + r(i-3)], whose output is [r(i) >> 1];
    the words are seeded by the Lehmer recurrence [16807 * w mod (2^31 - 1)]
    and the first 310 outputs are dropped.  [main] never calls [srand], so the
    seed is 1.  The first values are checked in [glibc_rand_first_values]. *)

Section Generator.

Import Uint63.

(** The window [r(i-31) .. r(i-1)], oldest first, and one step of it. *)
Definition glibc_step (window : list Z) : Z * list Z :=
  let v := Z.land (nth 0 window 0%Z + nth 28 window 0%Z) 0xFFFFFFFF%Z in
  (v, tl window ++ [v]).

Fixpoint glibc_seed_words (n : nat) (w : Z) : list Z :=
  match n with
  | O => []
  | S n' => w :: glibc_seed_words n' ((16807 * w) mod 2147483647)%Z
  end.

Fixpoint glibc_discard (n : nat) (window : list Z) : list Z :=
  match n with
  | O => window
  | S n' => glibc_discard n' (snd (glibc_step window))
  end.

(** [srand(seed)]: the state array starts with the front pointer at word 3
    and the rear pointer at word 0, so the oldest word of the window is
    word 3. *)
Definition glibc_seeded (seed : Z) : list Z :=
  let words := glibc_seed_words 31 seed in
  glibc_discard 310 (skipn 3 words ++ firstn 3 words).

Fixpoint glibc_outputs (n : nat) (window : list Z) (k : PrimInt63.int)
    (acc : PrimArray.array Z) : PrimArray.array Z :=
  match n with
  | O => acc
  | S n' =>
      let '(v, window') := glibc_step window in
      glibc_outputs n' window' (PrimInt63.add k 1%uint63)
                    (PrimArray.set acc k (Z.shiftr v 1))
  end.

(** The first 270,000 values of the process, enough for nine probes. *)
Definition glibc_values : PrimArray.array Z :=
  glibc_outputs (Z.to_nat 270000) (glibc_seeded 1) 0%uint63
                (PrimArray.make 270000%uint63 0%Z).

(** The [k]-th value that [rand()] returns in the process (from 0). *)
Definition glibc_rand (k : N) : Z :=
  PrimArray.get glibc_values (Uint63.of_Z (Z.of_N k)).

End Generator.

(** ** Vocabulary of the statements *)

(** [p] lies in the closed box. *)
Definition in_box (start end_ p : Point3D) : bool :=
  (x start <=? x p) && (x p <=? x end_)
  && (y start <=? y p) && (y p <=? y end_)
  && (z start <=? z p) && (z p <=? z end_).

Definition any_nonneg (f : field) (samples : list Point3D) : bool :=
  existsb (fun p => 0 <=? eval f p) samples.

Definition any_neg (f : field) (samples : list Point3D) : bool :=
  existsb (fun p => eval f p <? 0) samples.

Definition both_signs (f : field) (samples : list Point3D) : bool :=
  any_nonneg f samples && any_neg f samples.

Section Vocabulary64.

Variable RAND_MAX : Z.

(** The coordinate that [get_random_point_3d] makes of one draw [r]. *)
Definition scaled (lo hi : float) (r : Z) : float :=
  lo + of_int r / (of_int RAND_MAX / (hi - lo)).

Definition sample_at (src : rand_source) (start end_ : Point3D) (k : N) : Point3D :=
  mkPoint3D (scaled (x start) (x end_) (src k))
            (scaled (y start) (y end_) (src (N.succ k)))
            (scaled (z start) (z end_) (src (N.succ (N.succ k)))).

End Vocabulary64.

(** A schedule of the process: the probe of the node [path] makes its [k]-th
    call of [rand()] as call number [s path k] of the process.  With the
    sequence [g] of the seeded generator, the node's probe receives
    [g (s path k)]. *)
Definition draw_schedule : Type := list nat -> N -> N.

Definition scheduled (g : N -> Z) (s : draw_schedule) : rand_tree :=
  fun path k => g (s path k).

Fixpoint position (j : nat) (order : list nat) : N :=
  match order with
  | [] => 0%N
  | i :: rest => if Nat.eqb i j then 0%N else N.succ (position j rest)
  end.

(** The root probes first; then its eight tasks run to the end one after the
    other in the order [order], each making the 30,000 calls of its probe (a
    run in which no deeper node probes). *)
Definition one_after_another (order : list nat) : draw_schedule :=
  fun path k =>
    match path with
    | [] => k
    | j :: _ => ((1 + position j order) * 30000 + k)%N
    end.

(** What every schedule of a run in which the root and its eight tasks probe
    satisfies: the root makes the first 30,000 calls of the process, and no
    call of the process is made by two probes. *)
Definition admissible (s : draw_schedule) : Prop :=
  (forall k, s [] k = k)
  /\ forall (i j : nat) (k k' : N),
       (i < 8)%nat -> (j < 8)%nat -> (k < 30000)%N -> (k' < 30000)%N ->
       (30000 <= s [i] k)%N
       /\ (s [i] k = s [j] k' -> i = j /\ k = k').

(** The probes of the nodes reached through octant 7 only, one after the
    other. *)
Definition along_octant_7 : draw_schedule :=
  fun path k => (N.of_nat (length path) * 30000 + k)%N.




(** Two neighbouring doubles: [1] and the next one. *)
Definition tight_lo : Point3D := mkPoint3D 1 1 1.
Definition tight_hi : Point3D :=
  mkPoint3D 0x1.0000000000001p0 0x1.0000000000001p0 0x1.0000000000001p0.
Definition tight_precision : float := 0x1.8p-53.
Definition plane_tight : field := fun x _ _ => x - 0x1.0000000000001p0.

(** The sphere of radius [2^-3.5] about the origin. *)
Definition ball : field := fun x y z => x * x + y * y + z * z - 0x1p-7.

(** * Properties of the binary64 pipeline *)

(** ** Comparisons *)



(** ** The generator *)

Lemma glibc_rand_first_values :
  map glibc_rand [0; 1; 2; 3; 4; 5]%N
  = [1804289383; 846930886; 1681692777; 1714636915; 1957747793; 424238335]%Z.
Proof. vm_compute. reflexivity. Qed.

(** ** The probe *)

Section Probe64.

Variable RAND_MAX : Z.


Lemma random_samples_values (start end_ : Point3D) (n : nat) :
  forall (k : N) (src1 src2 : rand_source),
    (forall j, (k <= j < k + 3 * N.of_nat n)%N -> src1 j = src2 j) ->
    random_samples RAND_MAX n src1 start end_ k
    = random_samples RAND_MAX n src2 start end_ k.
Proof.
  induction n as [| n IH]; intros k src1 src2 H.
  - reflexivity.
  - cbn [random_samples]. unfold get_random_point_3d, rand.
    rewrite (H k), (H (N.succ k)), (H (N.succ (N.succ k))) by lia.
    f_equal. apply IH. intros j Hj. apply H. lia.
Qed.

End Probe64.







Section ProbeAnswer.

Variable RAND_MAX : Z.


Lemma probe_values (f : field) (start end_ : Point3D) (src1 src2 : rand_source) :
  (forall k, (k < 30000)%N -> src1 k = src2 k) ->
  cube_contains_surface RAND_MAX f start end_ src1
  = cube_contains_surface RAND_MAX f start end_ src2.
Proof.
  intros H. unfold cube_contains_surface.
  rewrite (random_samples_values RAND_MAX start end_ SAMPLES 0 src1 src2);
    [reflexivity |].
  intros j Hj. apply H. unfold SAMPLES in Hj. lia.
Qed.


End ProbeAnswer.

(** ** The corners *)





(** ** The recursion *)

Lemma join_eighth_unfinished {A : Type} (a b c d e f g : option A) :
  join [a; b; c; d; e; f; g; None] = None.
Proof. destruct a, b, c, d, e, f, g; reflexivity. Qed.

Section Recursion64.

Variable RAND_MAX : Z.

Lemma surface_to_triangles_at_leaf fuel f start end_ precision rt :
  is_leaf start end_ precision = true ->
  surface_to_triangles RAND_MAX (S fuel) f start end_ precision rt
  = Some (marching_cubes start end_ f).
Proof. intros H. cbn [surface_to_triangles]. rewrite H. reflexivity. Qed.

Lemma surface_to_triangles_at_pruned fuel f start end_ precision rt :
  is_leaf start end_ precision = false ->
  cube_contains_surface RAND_MAX f start end_ (rt []) = false ->
  surface_to_triangles RAND_MAX (S fuel) f start end_ precision rt = Some [].
Proof. intros H C. cbn [surface_to_triangles]. rewrite H, C. reflexivity. Qed.

Lemma surface_to_triangles_at_split fuel f start end_ precision rt :
  is_leaf start end_ precision = false ->
  cube_contains_surface RAND_MAX f start end_ (rt []) = true ->
  surface_to_triangles RAND_MAX (S fuel) f start end_ precision rt
  = let mid_x := (x start + x end_) / 2 in
    let mid_y := (y start + y end_) / 2 in
    let mid_z := (z start + z end_) / 2 in
    let mid := mkPoint3D mid_x mid_y mid_z in
    let task (i : nat) (s e : Point3D) :=
      surface_to_triangles RAND_MAX fuel f s e precision (subtree rt i) in
    match join
      [ task 0%nat start mid;
        task 1%nat (mkPoint3D mid_x (y start) (z start)) (mkPoint3D (x end_) mid_y mid_z);
        task 2%nat (mkPoint3D (x start) mid_y (z start)) (mkPoint3D mid_x (y end_) mid_z);
        task 3%nat (mkPoint3D mid_x mid_y (z start)) (mkPoint3D (x end_) (y end_) mid_z);
        task 4%nat (mkPoint3D (x start) (y start) mid_z) (mkPoint3D mid_x mid_y (z end_));
        task 5%nat (mkPoint3D mid_x (y start) mid_z) (mkPoint3D (x end_) mid_y (z end_));
        task 6%nat (mkPoint3D (x start) mid_y mid_z) (mkPoint3D mid_x (y end_) (z end_));
        task 7%nat mid end_ ]
    with
    | None => None
    | Some sub_results => Some (concat sub_results)
    end.
Proof. intros H C. cbn [surface_to_triangles]. rewrite H, C. reflexivity. Qed.

(** The result depends on the values of [rand()] only through the 30,000
    values that each probe receives. *)
Lemma surface_to_triangles_values (f : field) (precision : float) (fuel : nat) :
  forall (start end_ : Point3D) (rt1 rt2 : rand_tree),
    (forall (path : list nat) (k : N), (k < 30000)%N -> rt1 path k = rt2 path k) ->
    surface_to_triangles RAND_MAX fuel f start end_ precision rt1
    = surface_to_triangles RAND_MAX fuel f start end_ precision rt2.
Proof.
  induction fuel as [| fuel IH]; intros start end_ rt1 rt2 H.
  - reflexivity.
  - destruct (is_leaf start end_ precision) eqn:L.
    { rewrite !surface_to_triangles_at_leaf by exact L. reflexivity. }
    pose proof (probe_values RAND_MAX f start end_ (rt1 []) (rt2 []) (H [])) as E.
    destruct (cube_contains_surface RAND_MAX f start end_ (rt2 [])) eqn:C.
    + rewrite !surface_to_triangles_at_split by assumption. cbv beta zeta.
      assert (T : forall i s e,
                 surface_to_triangles RAND_MAX fuel f s e precision (subtree rt1 i)
                 = surface_to_triangles RAND_MAX fuel f s e precision (subtree rt2 i)).
      { intros i s e. apply IH. intros path k Hk. apply H, Hk. }
      rewrite !T. reflexivity.
    + rewrite !surface_to_triangles_at_pruned by assumption. reflexivity.
Qed.

End Recursion64.

(** ** Fields of one sign *)

Section OneSign64.

Variable RAND_MAX : Z.


End OneSign64.



(** ** [cube_contains_surface] *)

Section ProbeSpec64.

Variable RAND_MAX : Z.


End ProbeSpec64.


(** ** Neighbouring doubles *)

Section Tight.

Variable RAND_MAX : Z.

Lemma tight_box_unfinished (f : field) (fuel : nat) :
  forall rt : rand_tree,
    (forall n, (n < fuel)%nat ->
       cube_contains_surface RAND_MAX f tight_lo tight_hi (rt (repeat 7%nat n))
       = true) ->
    surface_to_triangles RAND_MAX fuel f tight_lo tight_hi tight_precision rt
    = None.
Proof.
  induction fuel as [| fuel IH]; intros rt H.
  - reflexivity.
  - rewrite surface_to_triangles_at_split;
      [| reflexivity | apply (H 0%nat); lia].
    cbv beta zeta.
    change (mkPoint3D ((x tight_lo + x tight_hi) / 2)
                      ((y tight_lo + y tight_hi) / 2)
                      ((z tight_lo + z tight_hi) / 2)) with tight_lo.
    rewrite (IH (subtree rt 7)).
    + rewrite join_eighth_unfinished. reflexivity.
    + intros n Hn. apply (H (S n)). lia.
Qed.

(** C7, where the code departs from it.  The box from (1,1,1) to
    (e,e,e), [e] the double after 1, with the positive precision
    [3 * 2^-54]: each extent is [2^-52], not below the precision, so the box
    is not a leaf; the midpoint is rounded to the start of the box, so octant
    7 is the box itself.  As long as the probes along octant 7 answer true,
    no depth of recursion returns a result. *)
Theorem adjacent_doubles_never_return (f : field) (rt : rand_tree) (fuel : nat) :
  (forall n, (n < fuel)%nat ->
     cube_contains_surface RAND_MAX f tight_lo tight_hi (rt (repeat 7%nat n))
     = true) ->
  (0 <? tight_precision) = true
  /\ ((x tight_lo <? x tight_hi) && (y tight_lo <? y tight_hi)
      && (z tight_lo <? z tight_hi)) = true
  /\ is_leaf tight_lo tight_hi tight_precision = false
  /\ mkPoint3D ((x tight_lo + x tight_hi) / 2) ((y tight_lo + y tight_hi) / 2)
               ((z tight_lo + z tight_hi) / 2) = tight_lo
  /\ surface_to_triangles RAND_MAX fuel f tight_lo tight_hi tight_precision rt
     = None.
Proof.
  intros H.
  split; [reflexivity |]. split; [reflexivity |]. split; [reflexivity |].
  split; [reflexivity |].
  apply tight_box_unfinished, H.
Qed.

End Tight.

Lemma adjacent_doubles_never_return_witness :
  surface_to_triangles glibc_RAND_MAX 3 plane_tight tight_lo tight_hi
    tight_precision (scheduled glibc_rand along_octant_7) = None.
Proof.
  apply (adjacent_doubles_never_return glibc_RAND_MAX plane_tight
           (scheduled glibc_rand along_octant_7) 3).
  intros n Hn.
  destruct n as [| [| [| n]]]; [vm_compute; reflexivity .. | lia].
Defined.

(** ** The result and the schedule *)

Section Schedule.

Variable RAND_MAX : Z.

(** C8, as the code has it.  [surface_to_triangles] takes no seed and no
    generator: its probes call the process-wide [rand()].  With the sequence
    of the seeded generator fixed, the result is determined by the field, the
    box, the precision and the schedule: two runs whose probes make their
    30,000 calls at the same places of the sequence return the same ordered
    sequence of triangles. *)
Theorem result_determined_by_schedule (f : field) (start end_ : Point3D)
    (precision : float) (fuel : nat) (g : N -> Z) (s1 s2 : draw_schedule) :
  (forall (path : list nat) (k : N), (k < 30000)%N -> s1 path k = s2 path k) ->
  surface_to_triangles RAND_MAX fuel f start end_ precision (scheduled g s1)
  = surface_to_triangles RAND_MAX fuel f start end_ precision (scheduled g s2).
Proof.
  intros H. apply surface_to_triangles_values.
  intros path k Hk. unfold scheduled. rewrite (H path k Hk). reflexivity.
Qed.

End Schedule.

Lemma result_determined_by_schedule_witness :
  surface_to_triangles glibc_RAND_MAX 3 ball (mkPoint3D 0 0 0) (mkPoint3D 4 4 4)
    1.5 (scheduled glibc_rand (one_after_another [0; 1; 2; 3; 4; 5; 6; 7]%nat))
  = surface_to_triangles glibc_RAND_MAX 3 ball (mkPoint3D 0 0 0) (mkPoint3D 4 4 4)
      1.5 (scheduled glibc_rand
             (fun path k =>
                if (k <? 30000)%N
                then one_after_another [0; 1; 2; 3; 4; 5; 6; 7]%nat path k
                else 0%N)).
Proof.
  apply (result_determined_by_schedule glibc_RAND_MAX ball).
  intros path k Hk.
  destruct (N.ltb_spec k 30000) as [_ | Hge]; [reflexivity | lia].
Defined.

(** The seed does not determine the result.  The same sequence, the one of
    seed 1, and the same input: the sphere of radius [2^-3.5] about the
    origin in the box from (0,0,0) to (4,4,4) at precision 1.5; in both runs
    the root probes first and every call of [rand()] goes to one probe.  When
    the eight tasks of the root run in the order 0 to 7 the probe of task 0
    receives the values 30,000 to 59,999, misses the sphere, and the result is
    empty; when they run in the order 7 to 0 it receives the values 240,000
    to 269,999, sees the sphere, and the result is one triangle. *)
Lemma task_order_changes_result :
  admissible (one_after_another [0; 1; 2; 3; 4; 5; 6; 7]%nat)
  /\ admissible (one_after_another [7; 6; 5; 4; 3; 2; 1; 0]%nat)
  /\ surface_to_triangles glibc_RAND_MAX 3 ball (mkPoint3D 0 0 0)
       (mkPoint3D 4 4 4) 1.5
       (scheduled glibc_rand (one_after_another [0; 1; 2; 3; 4; 5; 6; 7]%nat))
     = Some []
  /\ surface_to_triangles glibc_RAND_MAX 3 ball (mkPoint3D 0 0 0)
       (mkPoint3D 4 4 4) 1.5
       (scheduled glibc_rand (one_after_another [7; 6; 5; 4; 3; 2; 1; 0]%nat))
     = Some [ mkTriangle (mkPoint3D 0x1p-7 0 0) (mkPoint3D 0 0 0x1p-7)
                         (mkPoint3D 0 0x1p-7 0) ].
Proof.
  assert (A : forall order,
             (forall i, (i < 8)%nat -> (position i order < 8)%N) ->
             (forall i j, (i < 8)%nat -> (j < 8)%nat ->
                position i order = position j order -> i = j) ->
             admissible (one_after_another order)).
  { intros order Hlt Hinj. split; [reflexivity |].
    intros i j k k' Hi Hj Hk Hk'. cbn [one_after_another]. split; [lia |].
    intros E.
    assert (P : position i order = position j order) by lia.
    split; [apply Hinj; assumption | lia]. }
  assert (B : forall i : nat, (i < 8)%nat ->
                (i = 0 \/ i = 1 \/ i = 2 \/ i = 3 \/ i = 4 \/ i = 5 \/ i = 6
                 \/ i = 7)%nat) by (intros i Hi; lia).
  split.
  { apply A.
    - intros i Hi.
      destruct (B i Hi) as [-> | [-> | [-> | [-> | [-> | [-> | [-> | ->]]]]]]];
        reflexivity.
    - intros i j Hi Hj.
      destruct (B i Hi) as [-> | [-> | [-> | [-> | [-> | [-> | [-> | ->]]]]]]];
        destruct (B j Hj) as [-> | [-> | [-> | [-> | [-> | [-> | [-> | ->]]]]]]];
        cbn; intros E; congruence. }
  split.
  { apply A.
    - intros i Hi.
      destruct (B i Hi) as [-> | [-> | [-> | [-> | [-> | [-> | [-> | ->]]]]]]];
        reflexivity.
    - intros i j Hi Hj.
      destruct (B i Hi) as [-> | [-> | [-> | [-> | [-> | [-> | [-> | ->]]]]]]];
        destruct (B j Hj) as [-> | [-> | [-> | [-> | [-> | [-> | [-> | ->]]]]]]];
        cbn; intros E; congruence. }
  split; vm_compute; reflexivity.
Qed.

End Binary64.
